(** * Photo to KML: the GPS resolver and the KML builder of [app.py]

    A shallow embedding of [allowed_file], [get_exif_data],
    [convert_to_degrees], [get_gps_coordinates], [create_kml] and
    [upload_file], together with the Python built-ins these functions call
    ([float], tuple unpacking, [==], truthiness, [str], [repr] and the
    [format] of floats).

    Python floats are IEEE 754 binary64 numbers; they are embedded as
    Rocq's primitive floats, whose arithmetic is the same binary64
    arithmetic with rounding to nearest, ties to even. *)

From Stdlib Require Import ZArith String Ascii List DecimalString.
From Stdlib Require Import Floats.PrimFloat Floats.SpecFloat Floats.FloatOps.
From stdpp Require Import gmap strings.

Set Warnings "-register-all".

Local Open Scope string_scope.
Local Open Scope Z_scope.

(** ** Exceptions and results *)

(** The exception classes the modelled code can raise.  [ExpatError] is
    what [minidom.parseString] raises on text that is not well-formed. *)
Inductive exn : Set :=
| KeyError
| ValueError
| TypeError
| UnboundLocalError
| OverflowError
| ExpatError.

(** The outcome of running a piece of Python: a value or a raised
    exception. *)
Inductive result (A : Type) : Type :=
| Return (a : A)
| Raise (e : exn).

Arguments Return {A} a.
Arguments Raise {A} e.

#[global] Instance result_ret : MRet result := @Return.

#[global] Instance result_bind : MBind result := fun A B k r =>
  match r with
  | Return a => k a
  | Raise e => Raise e
  end.

(** [try: body except (KeyError, ValueError, TypeError): handler] *)
Definition caught (e : exn) : bool :=
  match e with
  | KeyError | ValueError | TypeError => true
  | _ => false
  end.

Definition try_except {A : Type} (body : result A) (handler : result A) : result A :=
  match body with
  | Return a => Return a
  | Raise e => if caught e then handler else Raise e
  end.

(** ** Python values *)

(** The values a tag can hold in this model: [int], [float], [str] and
    [tuple].  A [string] stands for a Python [str] whose characters are
    the code points 0 to 255, one per [ascii].  A rational tag value,
    which [float()] converts to the nearest float, is represented by
    that float. *)
Inductive value : Type :=
| VInt (z : Z)
| VFloat (f : float)
| VStr (s : string)
| VTuple (l : list value).

Module Py.

(** *** Small string helpers *)

Definition nl : string := String "010"%char "".
Definition dq : string := String "034"%char "".
Definition bs : string := String "092"%char "".

Fixpoint repeat_string (s : string) (n : nat) : string :=
  match n with
  | O => ""
  | S n' => s ++ repeat_string s n'
  end.

Definition code (c : ascii) : Z := Z.of_N (N_of_ascii c).

(** Decimal numeral of an integer, as [str(int)] prints it. *)
Definition dec (z : Z) : string := NilZero.string_of_int (Z.to_int z).

Definition ndigits (z : Z) : Z := Z.of_nat (String.length (dec z)).

(** *** Printing floats *)

(** Nearest integer to [n / d] for [d > 0], ties to even. *)
Definition round_half_even (n d : Z) : Z :=
  let q := n / d in
  match 2 * (n mod d) ?= d with
  | Lt => q
  | Gt => q + 1
  | Eq => if Z.even q then q else q + 1
  end.

(** [|x| * 10^prec] rounded to an integer, for [|x| = m * 2^e]. *)
Definition fixed_scaled (prec : nat) (m : positive) (e : Z) : Z :=
  let p10 := 10 ^ Z.of_nat prec in
  if 0 <=? e then Z.pos m * 2 ^ e * p10
  else round_half_even (Z.pos m * p10) (2 ^ (- e)).

(** Writes the integer [n >= 0] with a decimal point before its last
    [prec] digits. *)
Definition place_point (prec : nat) (n : Z) : string :=
  let ds := dec n in
  let ds := repeat_string "0" (S prec - String.length ds) ++ ds in
  let k := (String.length ds - prec)%nat in
  match prec with
  | O => ds
  | _ => substring 0 k ds ++ "." ++ substring k prec ds
  end.

Definition sign_string (s : bool) : string := if s then "-" else "".

(** [format(x, '.<prec>f')]: fixed notation with [prec] digits after the
    point, the exact binary value rounded half to even. *)
Definition format_fixed (prec : nat) (x : float) : string :=
  match Prim2SF x with
  | S754_nan => "nan"
  | S754_infinity s => sign_string s ++ "inf"
  | S754_zero s => sign_string s ++ place_point prec 0
  | S754_finite s m e => sign_string s ++ place_point prec (fixed_scaled prec m e)
  end.

(** Floor of the decimal logarithm of [n / d], for [n, d > 0]. *)
Definition ilog10 (n d : Z) : Z :=
  if d <=? n then ndigits (n / d) - 1
  else - ndigits ((d + n - 1) / n - 1).

(** The rounding interval of the binary64 number [m * 2^e], in units of
    [2^(e-2)]: every real strictly between the two bounds rounds to it,
    and the bounds themselves do when [m] is even.  The lower half is
    narrower just above a power of two. *)
Definition interval_low (m : positive) (e : Z) : Z :=
  if (Z.pos m =? 2 ^ 52) && (-1074 <? e) then 4 * Z.pos m - 1 else 4 * Z.pos m - 2.

Definition interval_high (m : positive) : Z := 4 * Z.pos m + 2.

(** A decimal with [n] significant digits that reads back as
    [m * 2^e], if there is one; when both neighbours do, the nearer
    one, and the even one when they are equally near.  The result
    [(c, k)] stands for [c * 10^k]. *)
Definition candidate (m : positive) (e : Z) (lg : Z) (n : Z) : option (Z * Z) :=
  let a := n - 1 - lg in
  let P := 2 ^ Z.max (e - 2) 0 * 10 ^ Z.max a 0 in
  let Q := 2 ^ Z.max (2 - e) 0 * 10 ^ Z.max (- a) 0 in
  let X := 4 * Z.pos m * P in
  let lo := X / Q in
  let hi := lo + 1 in
  let inside c :=
    if Z.even (Z.pos m)
    then (interval_low m e * P <=? c * Q) && (c * Q <=? interval_high m * P)
    else (interval_low m e * P <? c * Q) && (c * Q <? interval_high m * P) in
  let nearer :=
    match X - lo * Q ?= hi * Q - X with
    | Lt => lo
    | Gt => hi
    | Eq => if Z.even lo then lo else hi
    end in
  match inside lo, inside hi with
  | true, true => Some (nearer, - a)
  | true, false => Some (lo, - a)
  | false, true => Some (hi, - a)
  | false, false => None
  end.

Fixpoint shortest_from (m : positive) (e : Z) (lg : Z) (n : Z) (fuel : nat) : Z * Z :=
  match fuel with
  | O => (Z.pos m * 2 ^ e, 0)
  | S fuel' =>
      match candidate m e lg n with
      | Some ck => ck
      | None => shortest_from m e lg (n + 1) fuel'
      end
  end.

Fixpoint strip_zeros (c k : Z) (fuel : nat) : Z * Z :=
  match fuel with
  | O => (c, k)
  | S fuel' => if (c mod 10 =? 0) && (0 <? c) then strip_zeros (c / 10) (k + 1) fuel' else (c, k)
  end.

(** The shortest decimal [c * 10^k] that reads back as [m * 2^e]
    (17 significant digits always suffice for binary64). *)
Definition shortest_decimal (m : positive) (e : Z) : Z * Z :=
  let lg := if 0 <=? e then ilog10 (Z.pos m * 2 ^ e) 1 else ilog10 (Z.pos m) (2 ^ (- e)) in
  let '(c, k) := shortest_from m e lg 1 17 in
  strip_zeros c k 17.

(** [repr(x)] for a float, which is also [str(x)] and what an f-string
    field without a format specification prints: the shortest decimal
    that reads back as [x], in exponent notation when the decimal point
    would fall more than 16 digits right or more than 3 zeros left of
    the digits. *)
Definition float_repr (x : float) : string :=
  match Prim2SF x with
  | S754_nan => "nan"
  | S754_infinity s => sign_string s ++ "inf"
  | S754_zero s => sign_string s ++ "0.0"
  | S754_finite s m e =>
      let '(c, k) := shortest_decimal m e in
      let ds := dec c in
      let n := Z.of_nat (String.length ds) in
      let decpt := n + k in
      sign_string s ++
      (if (decpt <=? -4) || (16 <? decpt) then
         let ex := decpt - 1 in
         substring 0 1 ds ++
         (if 1 <? n then "." ++ substring 1 (String.length ds - 1) ds else "") ++
         "e" ++ (if ex <? 0 then "-" else "+") ++
         (if Z.abs ex <? 10 then "0" else "") ++ dec (Z.abs ex)
       else if decpt <=? 0 then
         "0." ++ repeat_string "0" (Z.to_nat (- decpt)) ++ ds
       else if n <=? decpt then
         ds ++ repeat_string "0" (Z.to_nat (decpt - n)) ++ ".0"
       else
         substring 0 (Z.to_nat decpt) ds ++ "." ++
         substring (Z.to_nat decpt) (Z.to_nat (n - decpt)) ds)
  end.

(** *** [float()] *)

(** The binary64 number nearest to the integer [z], ties to even. *)
Definition float_of_Z (z : Z) : float := SF2Prim (binary_normalize 53 1024 z 0 false).

(** [float(z)] for an [int]: an integer that rounds beyond the largest
    finite float raises [OverflowError]. *)
Definition float_of_int (z : Z) : result float :=
  let f := float_of_Z z in
  if is_infinity f then Raise OverflowError else Return f.

Definition is_digit (c : ascii) : bool := (48 <=? code c) && (code c <=? 57).

(** White space that [float()] strips from both ends of a [str]: the
    ASCII blanks and, of the code points above 127, NEL and the
    no-break space. *)
Definition is_space (c : ascii) : bool :=
  let n := code c in
  ((9 <=? n) && (n <=? 13)) || (n =? 32) || (n =? 133) || (n =? 160).

Definition lower (c : ascii) : ascii :=
  let n := code c in
  if (65 <=? n) && (n <=? 90) then ascii_of_N (Z.to_N (n + 32)) else c.

Fixpoint drop_spaces (l : list ascii) : list ascii :=
  match l with
  | c :: r => if is_space c then drop_spaces r else l
  | [] => []
  end.

Definition strip (l : list ascii) : list ascii :=
  rev (drop_spaces (rev (drop_spaces l))).

(** An underscore is allowed only between two digits. *)
Fixpoint underscores_ok (prev : option ascii) (l : list ascii) : bool :=
  match l with
  | [] => true
  | c :: r =>
      if Ascii.eqb c "_" then
        match prev, r with
        | Some p, n :: _ => is_digit p && is_digit n && underscores_ok (Some c) r
        | _, _ => false
        end
      else underscores_ok (Some c) r
  end.

Definition drop_underscores (l : list ascii) : list ascii :=
  filter (fun c => negb (Ascii.eqb c "_")) l.

Fixpoint take_digits (l : list ascii) : list ascii * list ascii :=
  match l with
  | c :: r =>
      if is_digit c then let '(d, r') := take_digits r in (c :: d, r') else ([], l)
  | [] => ([], [])
  end.

Definition digits_value (d : list ascii) : Z :=
  fold_left (fun acc c => 10 * acc + (code c - 48)) d 0.

Definition take_sign (l : list ascii) : bool * list ascii :=
  match l with
  | c :: r =>
      if Ascii.eqb c "-" then (true, r)
      else if Ascii.eqb c "+" then (false, r)
      else (false, l)
  | [] => (false, [])
  end.

(** A decimal literal [digits [. digits] [e [sign] digits]] with at least
    one digit before the exponent; the result [(M, k)] stands for
    [M * 10^k]. *)
Definition parse_decimal (l : list ascii) : option (Z * Z) :=
  let '(ip, r1) := take_digits l in
  let '(fp, r2) :=
    match r1 with
    | c :: r => if Ascii.eqb c "." then take_digits r else ([], r1)
    | [] => ([], r1)
    end in
  let M := digits_value (ip ++ fp)%list in
  let k := - Z.of_nat (length fp) in
  match (ip ++ fp)%list with
  | [] => None
  | _ :: _ =>
      match r2 with
      | [] => Some (M, k)
      | c :: r3 =>
          if Ascii.eqb (lower c) "e" then
            let '(neg, r4) := take_sign r3 in
            let '(ed, r5) := take_digits r4 in
            match ed, r5 with
            | _ :: _, [] =>
                Some (M, k + (if neg then - digits_value ed else digits_value ed))
            | _, _ => None
            end
          else None
      end
  end.

(** The binary64 number nearest to [M * 10^k] for [M >= 0], with sign
    [s].  Beyond [10^310] the result is an infinity and below [10^-330]
    a zero, whatever the digits. *)
Definition float_of_decimal (s : bool) (M k : Z) : float :=
  if M =? 0 then SF2Prim (S754_zero s)
  else if 310 <? ndigits M + k then SF2Prim (S754_infinity s)
  else if ndigits M + k <? -330 then SF2Prim (S754_zero s)
  else if 0 <=? k then
    SF2Prim (binary_normalize 53 1024 (if s then - (M * 10 ^ k) else M * 10 ^ k) 0 false)
  else
    SF2Prim (SFdiv 53 1024 (S754_finite s (Z.to_pos M) 0)
                           (S754_finite false (Z.to_pos (10 ^ (- k))) 0)).

(** [float(s)] for a [str]: [None] stands for [ValueError]. *)
Definition float_of_string (s : string) : option float :=
  let l := list_ascii_of_string s in
  if underscores_ok None l then
    let '(neg, body) := take_sign (strip (drop_underscores l)) in
    let word := string_of_list_ascii (map lower body) in
    if String.eqb word "inf" || String.eqb word "infinity" then
      Some (SF2Prim (S754_infinity neg))
    else if String.eqb word "nan" then Some nan
    else
      match parse_decimal body with
      | Some (M, k) => Some (float_of_decimal neg M k)
      | None => None
      end
  else None.

(** *** [repr()] of a [str] *)

Definition hex_digit (n : Z) : string :=
  substring (Z.to_nat n) 1 "0123456789abcdef".

(** A character with a code point below 256 prints as itself exactly
    when it is printable: ASCII 32 to 126, and 161 to 255 except the
    soft hyphen. *)
Definition is_printable (c : ascii) : bool :=
  let n := code c in
  ((32 <=? n) && (n <=? 126)) || ((161 <=? n) && negb (n =? 173)).

Definition repr_char (quote : ascii) (c : ascii) : string :=
  let n := code c in
  if Ascii.eqb c quote || Ascii.eqb c "\" then bs ++ String c ""
  else if n =? 9 then bs ++ "t"
  else if n =? 10 then bs ++ "n"
  else if n =? 13 then bs ++ "r"
  else if is_printable c then String c ""
  else bs ++ "x" ++ hex_digit (n / 16) ++ hex_digit (n mod 16).

Definition has_char (c : ascii) (s : string) : bool :=
  existsb (Ascii.eqb c) (list_ascii_of_string s).

(** [repr(s)]: single quotes, unless the text holds a single quote and
    no double quote. *)
Definition str_repr (s : string) : string :=
  let quote : ascii := if has_char "'" s && negb (has_char "034" s) then "034"%char else "'"%char in
  String quote "" ++
  String.concat "" (map (repr_char quote) (list_ascii_of_string s)) ++
  String quote "".

End Py.

(** [float(v)] *)
Definition py_float (v : value) : result float :=
  match v with
  | VInt z => Py.float_of_int z
  | VFloat f => Return f
  | VStr s =>
      match Py.float_of_string s with
      | Some f => Return f
      | None => Raise ValueError
      end
  | VTuple _ => Raise TypeError
  end.

(** [repr(v)] *)
Fixpoint py_repr (v : value) : string :=
  match v with
  | VInt z => Py.dec z
  | VFloat f => Py.float_repr f
  | VStr s => Py.str_repr s
  | VTuple l =>
      "(" ++ String.concat ", " (map py_repr l) ++
      match l with
      | [_] => ","
      | _ => ""
      end ++ ")"
  end.

(** [str(v)], which is what an f-string field prints. *)
Definition py_str (v : value) : string :=
  match v with
  | VStr s => s
  | _ => py_repr v
  end.

(** The truth value of a float: every float but the two zeros. *)
Definition float_truthy (f : float) : bool := negb (f =? 0)%float.

(** The truth value of [v] in a condition or under [or]. *)
Definition py_truthy (v : value) : bool :=
  match v with
  | VInt z => negb (z =? 0)
  | VFloat f => float_truthy f
  | VStr s => negb (String.eqb s "")
  | VTuple l => negb (Nat.eqb (length l) 0)
  end.

(** [v == s] for a [str] constant [s]. *)
Definition eq_str (v : value) (s : string) : bool :=
  match v with
  | VStr t => String.eqb t s
  | _ => false
  end.

(** [x == z] for a float [x] and an [int] [z]: Python compares the two
    exact values. *)
Definition float_eq_int (x : float) (z : Z) : bool :=
  match Prim2SF x with
  | S754_zero _ => z =? 0
  | S754_finite s m e =>
      let n := if s then Z.neg m else Z.pos m in
      if 0 <=? e then n * 2 ^ e =? z else n =? z * 2 ^ (- e)
  | _ => false
  end.

(** [v == z] for an [int] constant [z]. *)
Definition eq_int (v : value) (z : Z) : bool :=
  match v with
  | VInt y => y =? z
  | VFloat x => float_eq_int x z
  | _ => false
  end.

(** The characters of a [str], each a [str] of length one. *)
Definition chars (s : string) : list value :=
  map (fun c => VStr (String c "")) (list_ascii_of_string s).

(** [a, b, c = v]: a tuple or a [str] is iterated and must yield exactly
    three items ([ValueError] otherwise); an [int] or a [float] cannot be
    iterated ([TypeError]). *)
Definition unpack3 (v : value) : result (value * value * value) :=
  let items :=
    match v with
    | VTuple l => Return l
    | VStr s => Return (chars s)
    | VInt _ | VFloat _ => Raise TypeError
    end in
  l ← items;
  match l with
  | [a; b; c] => Return (a, b, c)
  | _ => Raise ValueError
  end.

(** ** The metadata read from an image *)

(** A key of the metadata dictionaries: the name of a tag, or the
    numeric id of a tag that has no name (the default of [TAGS.get] and
    [GPSTAGS.get] in [get_exif_data]). *)
Abbreviation tag := (string + Z)%type.

(** The dictionary [get_exif_data] returns.  Its loop stores the GPS
    block, itself a dictionary, under the key ["GPSInfo"] and every
    other tag flat; the two parts are kept apart here, so
    ["GPSInfo" in exif_data] is [GPSInfo exif_data <> None]. *)
Record RawMetadata : Type := {
  flat_tags : gmap tag value;
  GPSInfo : option (gmap tag value)
}.

(** [k in d] *)
Definition contains (d : gmap tag value) (k : string) : bool :=
  match d !! (inl k : tag) with
  | Some _ => true
  | None => false
  end.

(** [d[k]] *)
Definition getitem (d : gmap tag value) (k : string) : result value :=
  match d !! (inl k : tag) with
  | Some v => Return v
  | None => Raise KeyError
  end.

(** [d.get(k, default)]; Python's [None] is [None] here. *)
Definition dict_get (d : gmap tag value) (k : string) (default : option value) : option value :=
  match d !! (inl k : tag) with
  | Some v => Some v
  | None => default
  end.

(** [not exif_data] for a dictionary: it has no key at all. *)
Definition is_empty (exif_data : RawMetadata) : bool :=
  match GPSInfo exif_data with
  | Some _ => false
  | None => bool_decide (flat_tags exif_data = ∅)
  end.

(** ** [convert_to_degrees] and [get_gps_coordinates] *)

(** The dictionary [get_gps_coordinates] returns. *)
Record Coordinates : Type := {
  latitude : float;
  longitude : float;
  altitude : option float
}.

(** [d, m, s = value; return float(d) + float(m)/60 + float(s)/3600] *)
Definition convert_to_degrees (v : value) : result float :=
  '(d, m, s) ← unpack3 v;
  fd ← py_float d;
  fm ← py_float m;
  fs ← py_float s;
  Return (fd + fm / 60 + fs / 3600)%float.

(** Reading a local variable: one that no executed statement assigned
    raises [UnboundLocalError]. *)
Definition read_local {A : Type} (x : option A) : result A :=
  match x with
  | Some a => Return a
  | None => Raise UnboundLocalError
  end.

(** [gps_info.get("GPSAltitudeRef") == 1]; an absent key gives [None],
    which is not [1]. *)
Definition altitude_ref_is_1 (gps_info : gmap tag value) : bool :=
  match dict_get gps_info "GPSAltitudeRef" None with
  | Some r => eq_int r 1
  | None => false
  end.

(** The block under [# Get latitude].  The local [lat] is assigned only
    inside the [if]: the result is [None] while it is unassigned. *)
Definition get_latitude (gps_info : gmap tag value) : result (option float) :=
  if contains gps_info "GPSLatitude" && contains gps_info "GPSLatitudeRef" then
    v ← getitem gps_info "GPSLatitude";
    lat ← convert_to_degrees v;
    r ← getitem gps_info "GPSLatitudeRef";
    Return (Some (if eq_str r "S" then (- lat)%float else lat))
  else Return None.

(** The block under [# Get longitude], with the local [lon]. *)
Definition get_longitude (gps_info : gmap tag value) : result (option float) :=
  if contains gps_info "GPSLongitude" && contains gps_info "GPSLongitudeRef" then
    v ← getitem gps_info "GPSLongitude";
    lon ← convert_to_degrees v;
    r ← getitem gps_info "GPSLongitudeRef";
    Return (Some (if eq_str r "W" then (- lon)%float else lon))
  else Return None.

(** The block under [# Get altitude if available]; here [None] is the
    value [None] the code assigns first. *)
Definition get_altitude (gps_info : gmap tag value) : result (option float) :=
  if contains gps_info "GPSAltitude" then
    v ← getitem gps_info "GPSAltitude";
    altitude ← py_float v;
    Return (Some (if altitude_ref_is_1 gps_info then (- altitude)%float else altitude))
  else Return None.

(** The [try] block of [get_gps_coordinates]: the three blocks, then
    the dictionary display, which reads [lat] and [lon]. *)
Definition resolve (gps_info : gmap tag value) : result (option Coordinates) :=
  lat ← get_latitude gps_info;
  lon ← get_longitude gps_info;
  altitude ← get_altitude gps_info;
  lat ← read_local lat;
  lon ← read_local lon;
  Return (Some {| latitude := lat; longitude := lon; altitude := altitude |}).

(** [get_gps_coordinates(exif_data)]; the outer [None] is Python's
    [None] passed for [exif_data], the inner one the [None] returned. *)
Definition get_gps_coordinates (exif_data : option RawMetadata) : result (option Coordinates) :=
  match exif_data with
  | None => Return None
  | Some exif =>
      if is_empty exif then Return None
      else
        match GPSInfo exif with
        | None => Return None
        | Some gps_info => try_except (resolve gps_info) (Return None)
        end
  end.

(** ** [create_kml] *)

(** An [ElementTree] element: tag, attributes, text and children. *)
Inductive element : Type :=
| Element (name : string) (attrib : list (string * string))
          (text : option string) (children : list element).

(** [timestamp or 'Unknown'], as the f-string prints it. *)
Definition captured (timestamp : option value) : string :=
  match timestamp with
  | Some t => if py_truthy t then py_str t else "Unknown"
  | None => "Unknown"
  end.

(** [if coordinates['altitude']]: the altitude when the test is true. *)
Definition truthy_altitude (coordinates : Coordinates) : option float :=
  match altitude coordinates with
  | Some a => if float_truthy a then Some a else None
  | None => None
  end.

(** The text of the placemark's [description] element. *)
Definition pm_description_text (photo_filename : string) (coordinates : Coordinates)
    (photo_url : string) (timestamp : option value) : string :=
  Py.nl ++
  "    <![CDATA[" ++ Py.nl ++
  "    <h3>" ++ photo_filename ++ "</h3>" ++ Py.nl ++
  "    <p>Captured: " ++ captured timestamp ++ "</p>" ++ Py.nl ++
  "    <p>Coordinates: " ++ Py.format_fixed 6 (latitude coordinates) ++ ", " ++
       Py.format_fixed 6 (longitude coordinates) ++ "</p>" ++ Py.nl ++
  "    " ++ match truthy_altitude coordinates with
            | Some a => "<p>Altitude: " ++ Py.format_fixed 2 a ++ "m</p>"
            | None => ""
            end ++ Py.nl ++
  "    <img src=" ++ Py.dq ++ photo_url ++ Py.dq ++ " width=" ++ Py.dq ++ "300" ++ Py.dq ++
       " alt=" ++ Py.dq ++ "Photo" ++ Py.dq ++ "/><br/>" ++ Py.nl ++
  "    <a href=" ++ Py.dq ++ photo_url ++ Py.dq ++ " target=" ++ Py.dq ++ "_blank" ++ Py.dq ++
       ">View Full Size</a>" ++ Py.nl ++
  "    ]]>" ++ Py.nl ++
  "    ".

(** The text of the [coordinates] element of the point. *)
Definition coords_text (coordinates : Coordinates) : string :=
  match truthy_altitude coordinates with
  | Some a =>
      Py.float_repr (longitude coordinates) ++ "," ++
      Py.float_repr (latitude coordinates) ++ "," ++ Py.float_repr a
  | None =>
      Py.float_repr (longitude coordinates) ++ "," ++ Py.float_repr (latitude coordinates)
  end.

(** The element tree [create_kml] builds before it serializes it. *)
Definition kml_tree (photo_filename : string) (coordinates : Coordinates)
    (photo_url : string) (timestamp : option value) : element :=
  let name := Element "name" [] (Some ("Photo Location: " ++ photo_filename)) [] in
  let description :=
    Element "description" [] (Some ("GPS location extracted from " ++ photo_filename)) [] in
  let pm_name := Element "name" [] (Some photo_filename) [] in
  let pm_description :=
    Element "description" []
      (Some (pm_description_text photo_filename coordinates photo_url timestamp)) [] in
  let coords := Element "coordinates" [] (Some (coords_text coordinates)) [] in
  let point := Element "Point" [] None [coords] in
  let placemark := Element "Placemark" [] None [pm_name; pm_description; point] in
  let document := Element "Document" [] None [name; description; placemark] in
  Element "kml" [("xmlns", "http://www.opengis.net/kml/2.2")] None [document].

Section Serialization.

(** [ET.tostring(kml, 'utf-8')], [minidom.parseString] and
    [toprettyxml(indent="  ")] in sequence.  This is library code: it
    is a parameter of the model, a function from the tree to the text
    or to the exception the parser raises. *)
Variable serialize : element -> result string.

(** [create_kml(photo_filename, coordinates, photo_url, timestamp)] *)
Definition create_kml (photo_filename : string) (coordinates : Coordinates)
    (photo_url : string) (timestamp : option value) : result string :=
  serialize (kml_tree photo_filename coordinates photo_url timestamp).

(** ** [upload_file], from the metadata to the document *)

(** What the handler answers: a JSON error with status 400, or the
    success body together with the KML text it wrote. *)
Inductive response : Type :=
| Error400 (error : string)
| Success (kml_content : string) (coordinates : Coordinates) (timestamp : option value).

(** [exif_data.get('DateTime', exif_data.get('DateTimeOriginal'))] *)
Definition upload_timestamp (exif_data : RawMetadata) : option value :=
  dict_get (flat_tags exif_data) "DateTime"
    (dict_get (flat_tags exif_data) "DateTimeOriginal" None).

(** The part of [upload_file] that follows the saving of the upload:
    [exif_data] is what [get_exif_data] returned for the saved file,
    [filename] the name the client sent and [photo_url] the address
    [url_for] gave the stored photo. *)
Definition upload_file (filename : string) (exif_data : option RawMetadata)
    (photo_url : string) : result response :=
  match exif_data with
  | None => Return (Error400 "No EXIF data found in image")
  | Some exif =>
      if is_empty exif then Return (Error400 "No EXIF data found in image")
      else
        coordinates ← get_gps_coordinates (Some exif);
        match coordinates with
        | None => Return (Error400 "No GPS coordinates found in image EXIF data")
        | Some coordinates =>
            let timestamp := upload_timestamp exif in
            kml_content ← create_kml filename coordinates photo_url timestamp;
            Return (Success kml_content coordinates timestamp)
        end
  end.

End Serialization.

(** ** A serializer *)

(** One serializer, for running the model on examples: it prints the
    tree the way [toprettyxml(indent="  ")] lays it out, with [&], [<],
    [>] and the double quote escaped.  It agrees with the library on
    text without control characters and always returns, where the
    library rejects some characters and rewrites carriage returns; it
    is applied to such plain text only.  The statements about
    [create_kml] and [upload_file] hold for every serializer. *)
Module Xml.

Definition escape_char (c : ascii) : string :=
  if Ascii.eqb c "&" then "&amp;"
  else if Ascii.eqb c "<" then "&lt;"
  else if Ascii.eqb c ">" then "&gt;"
  else if Ascii.eqb c "034" then "&quot;"
  else String c "".

Definition escape (s : string) : string :=
  String.concat "" (map escape_char (list_ascii_of_string s)).

Definition attributes (l : list (string * string)) : string :=
  String.concat "" (map (fun kv => " " ++ fst kv ++ "=" ++ Py.dq ++ escape (snd kv) ++ Py.dq) l).

Fixpoint write (indent : string) (e : element) : string :=
  match e with
  | Element name attrib text children =>
      let open := indent ++ "<" ++ name ++ attributes attrib in
      match text, children with
      | Some t, [] =>
          if String.eqb t "" then open ++ "/>" ++ Py.nl
          else open ++ ">" ++ escape t ++ "</" ++ name ++ ">" ++ Py.nl
      | None, [] => open ++ "/>" ++ Py.nl
      | _, _ =>
          open ++ ">" ++ Py.nl ++
          match text with
          | Some t => if String.eqb t "" then "" else indent ++ "  " ++ escape t ++ Py.nl
          | None => ""
          end ++
          String.concat "" (map (write (indent ++ "  ")) children) ++
          indent ++ "</" ++ name ++ ">" ++ Py.nl
      end
  end.

Definition toprettyxml (e : element) : result string :=
  Return ("<?xml version=" ++ Py.dq ++ "1.0" ++ Py.dq ++ " ?>" ++ Py.nl ++ write "" e).

End Xml.

(** ** The specification's wording, for comparison *)

(** The spec's timestamp rule: [DateTimeOriginal], falling back to
    [DateTime]. *)
Definition spec_timestamp (exif_data : RawMetadata) : option value :=
  dict_get (flat_tags exif_data) "DateTimeOriginal"
    (dict_get (flat_tags exif_data) "DateTime" None).

(** The spec's point text: longitude first, the two angles with six
    decimals, the altitude, when there is one, with two. *)
Definition spec_coords_text (coordinates : Coordinates) : string :=
  Py.format_fixed 6 (longitude coordinates) ++ "," ++
  Py.format_fixed 6 (latitude coordinates) ++
  match altitude coordinates with
  | Some a => "," ++ Py.format_fixed 2 a
  | None => ""
  end.

(** ** Sample metadata *)

Definition dms (d m s : Z) : value := VTuple [VInt d; VInt m; VInt s].

(** Only the latitude pair, and only the longitude pair. *)
Definition latitude_only : RawMetadata :=
  {| flat_tags := ∅;
     GPSInfo := Some (<[inl "GPSLatitude" := dms 40 26 46]>
                     (<[inl "GPSLatitudeRef" := VStr "N"]> ∅)) |}.

Definition longitude_only : RawMetadata :=
  {| flat_tags := ∅;
     GPSInfo := Some (<[inl "GPSLongitude" := dms 79 58 56]>
                     (<[inl "GPSLongitudeRef" := VStr "W"]> ∅)) |}.

(** Metadata with a date and no GPS block. *)
Definition no_gps : RawMetadata :=
  {| flat_tags := <[inl "DateTime" := VStr "2024:01:02 03:04:05"]> ∅;
     GPSInfo := None |}.

(** The spec's scenario: 40°26'46" N, 79°58'56" W, no altitude. *)
Definition pittsburgh_gps : gmap tag value :=
  <[inl "GPSLatitude" := dms 40 26 46]> (<[inl "GPSLatitudeRef" := VStr "N"]>
  (<[inl "GPSLongitude" := dms 79 58 56]> (<[inl "GPSLongitudeRef" := VStr "W"]> ∅))).

Definition pittsburgh : RawMetadata :=
  {| flat_tags := ∅; GPSInfo := Some pittsburgh_gps |}.

Definition pittsburgh_coordinates : Coordinates :=
  {| latitude := (40 + 26 / 60 + 46 / 3600)%float;
     longitude := (- (79 + 58 / 60 + 56 / 3600))%float;
     altitude := None |}.

(** The same place with an altitude and its reference. *)
Definition with_altitude (a ref : value) : RawMetadata :=
  {| flat_tags := ∅;
     GPSInfo := Some (<[inl "GPSAltitude" := a]>
                     (<[inl "GPSAltitudeRef" := ref]> pittsburgh_gps)) |}.

(** Altitude exactly 0.0 above sea level, and 10.0 below sea level. *)
Definition sea_level : RawMetadata := with_altitude (VFloat 0) (VInt 0).

Definition below_sea_level : RawMetadata := with_altitude (VFloat 10) (VInt 1).

(** An altitude without a reference. *)
Definition altitude_without_ref : RawMetadata :=
  {| flat_tags := ∅; GPSInfo := Some (<[inl "GPSAltitude" := VFloat 120.5]> pittsburgh_gps) |}.



(** Both date tags, with different values. *)
Definition both_dates : RawMetadata :=
  {| flat_tags := <[inl "DateTime" := VStr "2024:03:01 10:00:00"]>
                  (<[inl "DateTimeOriginal" := VStr "2024:02:28 17:45:12"]> ∅);
     GPSInfo := Some pittsburgh_gps |}.







(** [convert_to_degrees] raised one of the two errors of a malformed
    value: [ValueError] (wrong number of items, text that is no number)
    or [TypeError] (nothing to unpack, an item that cannot be a
    float). *)
Definition conversion_fault (r : result float) : Prop :=
  r = Raise ValueError \/ r = Raise TypeError.

(** ** [allowed_file] and the stored names *)

(** [ALLOWED_EXTENSIONS] *)
Definition ALLOWED_EXTENSIONS : gset string :=
  list_to_set ["jpg"; "jpeg"; "png"; "tiff"; "heic"].

(** [s.rsplit(sep, 1)] as a pair: the text before and the text after the
    last [sep], when there is one. *)
Fixpoint rsplit_last (sep : ascii) (s : string) : option (string * string) :=
  match s with
  | EmptyString => None
  | String a r =>
      match rsplit_last sep r with
      | Some (before, after) => Some (String a before, after)
      | None => if Ascii.eqb a sep then Some ("", r) else None
      end
  end.

(** [s.rsplit(sep, 1)]: two items when [sep] occurs, else [s] alone. *)
Definition rsplit1 (sep : ascii) (s : string) : list string :=
  match rsplit_last sep s with
  | Some (before, after) => [before; after]
  | None => [s]
  end.

(** [c.lower()] for a code point below 256: the ASCII capitals and the
    capitals from 192 to 222, the multiplication sign apart, move up by
    32. *)
Definition lower_char (c : ascii) : ascii :=
  let n := Py.code c in
  if ((65 <=? n) && (n <=? 90)) || ((192 <=? n) && (n <=? 222) && negb (n =? 215))
  then ascii_of_N (Z.to_N (n + 32))
  else c.

(** [s.lower()] *)
Fixpoint str_lower (s : string) : string :=
  match s with
  | EmptyString => EmptyString
  | String c r => String (lower_char c) (str_lower r)
  end.

(** [filename.rsplit('.', 1)[1].lower()].  The index is in range
    whenever the name holds a dot, which both uses check first. *)
Definition file_extension (filename : string) : string :=
  str_lower (nth 1 (rsplit1 "." filename) "").

(** [allowed_file(filename)] *)
Definition allowed_file (filename : string) : bool :=
  Py.has_char "." filename && bool_decide (file_extension filename ∈ ALLOWED_EXTENSIONS).

(** [os.path.join(a, b)] with POSIX separators. *)
Definition path_join (a b : string) : string :=
  if String.prefix "/" b then b
  else if String.eqb a "" || String.eqb (substring (String.length a - 1) 1 a) "/" then a ++ b
  else a ++ "/" ++ b.

Definition UPLOAD_FOLDER : string := "uploads".
Definition KML_FOLDER : string := "kml_files".

(** [s.split(sep)] for a one-character separator. *)
Fixpoint str_split (sep : ascii) (s : string) : list string :=
  match s with
  | EmptyString => [""]
  | String c r =>
      if Ascii.eqb c sep then "" :: str_split sep r
      else
        match str_split sep r with
        | h :: t => String c h :: t
        | [] => [String c ""]
        end
  end.

(** ** The whole of [upload_file] *)

(** What the handler does to the two folders: [file.save(filepath)] and
    the [write] of the KML text. *)
Inductive effect : Type :=
| FileSave (path : string)
| FileWrite (path : string) (content : string).

(** The two answers of the handler: [jsonify({'error': ...}), 400] and
    the success body. *)
Inductive http_response : Type :=
| Json400 (error : string)
| Json200 (photo_url kml_url : string) (coordinates : Coordinates)
          (timestamp : option value) (original_filename : string).

Section Handler.

Variable serialize : element -> result string.

(** [url_for(endpoint, filename=..., _external=True)] *)
Variable url_for : string -> string -> string.

(** Whether [jsonify] can encode the timestamp of the success body.
    The raw metadata holds values JSON has no form for, byte strings
    and rationals among them, which [value] does not tell apart from
    texts and floats; for these [jsonify] raises [TypeError].  The
    other fields of the body are texts, floats and [None]. *)
Variable json_serializable : option value -> bool.

(** The handler of [POST /upload].  [photo] is the file name of
    [request.files['photo']], [None] when the request holds no such
    part; [photo_id] and [kml_id] are the two values of
    [uuid.uuid4().hex]; [exif_data] is what [get_exif_data] returns for
    the file once saved.  The result pairs the files written, in order,
    with the answer or the exception that escapes.  The success body
    is built after the KML file is written, so that an exception of
    [jsonify] leaves both files behind. *)
Definition upload_file_handler (photo : option string) (photo_id kml_id : string)
    (exif_data : option RawMetadata) : list effect * result http_response :=
  match photo with
  | None => ([], Return (Json400 "No photo file provided"))
  | Some filename =>
      if String.eqb filename "" then ([], Return (Json400 "No file selected"))
      else if allowed_file filename then
        let unique_filename := photo_id ++ "." ++ file_extension filename in
        let filepath := path_join UPLOAD_FOLDER unique_filename in
        let photo_url := url_for "uploaded_file" unique_filename in
        match upload_file serialize filename exif_data photo_url with
        | Return (Error400 error) => ([FileSave filepath], Return (Json400 error))
        | Return (Success kml_content coordinates timestamp) =>
            let kml_filename := kml_id ++ ".kml" in
            let kml_filepath := path_join KML_FOLDER kml_filename in
            ([FileSave filepath; FileWrite kml_filepath kml_content],
             if json_serializable timestamp
             then Return (Json200 photo_url (url_for "download_kml" kml_filename)
                            coordinates timestamp filename)
             else Raise TypeError)
        | Raise e => ([FileSave filepath], Raise e)
        end
      else
        ([], Return (Json400 "Invalid file type. Please upload JPG, PNG, TIFF, or HEIC files."))
  end.

End Handler.

(** ** [get_exif_data] *)

(** A value of the dictionary [image._getexif()] returns: a tag value,
    or the dictionary of a nested block, whose entries are tag values.
    Dictionaries are lists of items in iteration order. *)
Inductive exif_object : Type :=
| ExifValue (v : value)
| ExifBlock (d : list (Z * value)).

(** What opening the image and reading its EXIF block gives: an
    exception, [None], or the dictionary. *)
Inductive exif_read : Type :=
| ReadError
| ReadNone
| ReadExif (d : list (Z * exif_object)).

(** A value of the dictionary [get_exif_data] builds. *)
Inductive entry : Type :=
| Flat (v : value)
| Block (d : gmap tag value).

Section Reader.

(** [PIL.ExifTags.TAGS] and [PIL.ExifTags.GPSTAGS], from tag id to
    name. *)
Variables TAGS GPSTAGS : gmap Z string.

(** [table.get(tag_id, tag_id)] *)
Definition tag_name (table : gmap Z string) (tag_id : Z) : tag :=
  match table !! tag_id with
  | Some name => inl name
  | None => inr tag_id
  end.

(** The inner loop: [gps_data[gps_tag] = gps_value] for every item. *)
Definition gps_data (d : list (Z * value)) : gmap tag value :=
  fold_left (fun gps_data item => <[tag_name GPSTAGS (fst item) := snd item]> gps_data) d ∅.

(** A nested dictionary stored as it is, under its numeric keys. *)
Definition as_stored (d : list (Z * value)) : gmap tag value :=
  fold_left (fun m item => <[(inr (fst item) : tag) := snd item]> m) d ∅.

(** One turn of the outer loop; [None] when it raises (the [items] of
    a value that is no dictionary). *)
Definition store (extracted_data : gmap tag entry) (item : Z * exif_object) :
    option (gmap tag entry) :=
  let key := tag_name TAGS (fst item) in
  if decide (key = inl "GPSInfo") then
    match snd item with
    | ExifBlock d => Some (<[(inl "GPSInfo" : tag) := Block (gps_data d)]> extracted_data)
    | ExifValue _ => None
    end
  else
    Some (<[key := match snd item with
                   | ExifValue v => Flat v
                   | ExifBlock d => Block (as_stored d)
                   end]> extracted_data).

Fixpoint extract (extracted_data : gmap tag entry) (items : list (Z * exif_object)) :
    option (gmap tag entry) :=
  match items with
  | [] => Some extracted_data
  | item :: rest =>
      match store extracted_data item with
      | Some extracted_data' => extract extracted_data' rest
      | None => None
      end
  end.

(** [get_exif_data(image_path)], from what reading the image gives.
    Every exception ends in [None]. *)
Definition get_exif_data (read : exif_read) : option (gmap tag entry) :=
  match read with
  | ReadError => None
  | ReadNone => None
  | ReadExif [] => None
  | ReadExif exif_data => extract ∅ exif_data
  end.

End Reader.

(** The dictionary as the record the resolver and the handler read: the
    tag values, and the block under ["GPSInfo"].  A nested dictionary
    under any other key is left out of the record: neither the resolver
    nor the timestamp rule reads one. *)
Definition flat_value (e : entry) : option value :=
  match e with
  | Flat v => Some v
  | Block _ => None
  end.

Definition as_metadata (extracted_data : gmap tag entry) : RawMetadata :=
  {| flat_tags := omap flat_value extracted_data;
     GPSInfo := match extracted_data !! (inl "GPSInfo" : tag) with
                | Some (Block d) => Some d
                | _ => None
                end |}.

(** A sample of [jsonify] on timestamps: every value of the model is
    encoded. *)
Definition json_encodes (timestamp : option value) : bool := true.

(** [url_for] for the two file routes, [/uploads/<filename>] and
    [/kml/<filename>], on a local host; used where an instance is
    needed. *)
Definition local_url_for (endpoint filename : string) : string :=
  "http://localhost:5000" ++
  (if String.eqb endpoint "uploaded_file" then "/uploads/" else "/kml/") ++ filename.

(** Every character of [s] passes the test [P]. *)
Fixpoint all_chars (P : ascii -> bool) (s : string) : bool :=
  match s with
  | EmptyString => true
  | String c r => P c && all_chars P r
  end.

(** The characters [repr()] of a float is made of: digits, the point,
    the signs, the exponent mark and the letters of "inf" and "nan". *)
Definition float_char (c : ascii) : bool :=
  Py.is_digit c || Py.has_char c ".-+einfa".

(** An excerpt of Pillow's [TAGS] and [GPSTAGS], and the EXIF
    dictionary of a photo taken at the sample place; 59999 is an id
    [TAGS] does not know. *)
Definition sample_TAGS : gmap Z string :=
  <[271 := "Make"]> (<[306 := "DateTime"]> (<[36867 := "DateTimeOriginal"]>
  (<[34853 := "GPSInfo"]> ∅))).

Definition sample_GPSTAGS : gmap Z string :=
  <[1 := "GPSLatitudeRef"]> (<[2 := "GPSLatitude"]> (<[3 := "GPSLongitudeRef"]>
  (<[4 := "GPSLongitude"]> (<[5 := "GPSAltitudeRef"]> (<[6 := "GPSAltitude"]> ∅))))).

Definition sample_gps_block : list (Z * value) :=
  [(1, VStr "N"); (2, dms 40 26 46); (3, VStr "W"); (4, dms 79 58 56)].

Definition sample_exif : list (Z * exif_object) :=
  [(271, ExifValue (VStr "Canon"));
   (306, ExifValue (VStr "2024:03:01 10:00:00"));
   (34853, ExifBlock sample_gps_block);
   (59999, ExifValue (VInt 7))].

(** * Properties *)

(** ** The built-ins on a few inputs *)

Example float_repr_examples :
  Py.float_repr (1 / 10) = "0.1" /\
  Py.float_repr (1 / 10 + 2 / 10) = "0.30000000000000004" /\
  Py.float_repr 10000000000000000 = "1e+16" /\
  Py.float_repr (1 / 100000) = "1e-05" /\
  Py.float_repr (- 0) = "-0.0".
Proof. repeat split; reflexivity. Qed.

Example format_fixed_examples :
  Py.format_fixed 2 (2675 / 1000) = "2.67" /\
  Py.format_fixed 6 (1 / 128) = "0.007812" /\
  Py.format_fixed 2 (- (4 / 10000)) = "-0.00" /\
  Py.format_fixed 6 (40 + 26 / 60 + 46 / 3600) = "40.446111".
Proof. repeat split; reflexivity. Qed.

Example py_float_examples :
  py_float (VInt 46) = Return 46%float /\
  py_float (VStr " 1_0.5e1 ") = Return 105%float /\
  py_float (VStr "abc") = Raise ValueError /\
  py_float (VTuple []) = Raise TypeError /\
  py_float (VInt (10 ^ 400)) = Raise OverflowError.
Proof. repeat split; reflexivity. Qed.

Example py_repr_example : py_repr (VTuple [VStr "a"; VInt 1]) = "('a', 1)".
Proof. reflexivity. Qed.

(** A text of three digits unpacks into its characters. *)
Example convert_to_degrees_text :
  convert_to_degrees (VStr "123") = Return (1 + 2 / 60 + 3 / 3600)%float.
Proof. reflexivity. Qed.

(** ** The result monad and the dictionary operations *)

Lemma bind_Return {A B : Type} (a : A) (k : A -> result B) : (Return a ≫= k) = k a.
Proof. reflexivity. Qed.

Lemma bind_Raise {A B : Type} (e : exn) (k : A -> result B) : (Raise e ≫= k) = Raise e.
Proof. reflexivity. Qed.

Lemma contains_Some (d : gmap tag value) (k : string) (v : value) :
  d !! (inl k : tag) = Some v -> contains d k = true.
Proof. intros H. unfold contains. now rewrite H. Qed.

Lemma contains_None (d : gmap tag value) (k : string) :
  d !! (inl k : tag) = None -> contains d k = false.
Proof. intros H. unfold contains. now rewrite H. Qed.

Lemma getitem_Some (d : gmap tag value) (k : string) (v : value) :
  d !! (inl k : tag) = Some v -> getitem d k = Return v.
Proof. intros H. unfold getitem. now rewrite H. Qed.

Lemma is_empty_GPSInfo (exif : RawMetadata) (gps_info : gmap tag value) :
  GPSInfo exif = Some gps_info -> is_empty exif = false.
Proof. intros H. unfold is_empty. now rewrite H. Qed.

(** With a GPS block the resolver is its [try] block under the
    handler. *)
Lemma get_gps_coordinates_GPSInfo (exif : RawMetadata) (gps_info : gmap tag value) :
  GPSInfo exif = Some gps_info ->
  get_gps_coordinates (Some exif) = try_except (resolve gps_info) (Return None).
Proof.
  intros H. unfold get_gps_coordinates.
  rewrite (is_empty_GPSInfo _ _ H). now rewrite H.
Qed.

(** ** Missing GPS block *)

(** C7: for metadata without the key "GPSInfo", and for absent
    metadata, the resolver returns None and raises nothing. *)
Theorem get_gps_coordinates_without_GPSInfo (exif_data : option RawMetadata) :
  exif_data = None \/ (exists exif, exif_data = Some exif /\ GPSInfo exif = None) ->
  get_gps_coordinates exif_data = Return None.
Proof.
  intros [-> | (exif & -> & H)]; [reflexivity |].
  unfold get_gps_coordinates. rewrite H. now destruct (is_empty exif).
Qed.

Lemma get_gps_coordinates_without_GPSInfo_witness :
  get_gps_coordinates (Some no_gps) = Return None /\ get_gps_coordinates None = Return None.
Proof.
  split.
  - apply get_gps_coordinates_without_GPSInfo. right. exists no_gps. split; reflexivity.
  - apply get_gps_coordinates_without_GPSInfo. left. reflexivity.
Defined.

(** ** The three blocks of the resolver *)

Section Blocks.

Variable gps_info : gmap tag value.

Lemma get_latitude_present (v r : value) :
  gps_info !! (inl "GPSLatitude" : tag) = Some v ->
  gps_info !! (inl "GPSLatitudeRef" : tag) = Some r ->
  get_latitude gps_info =
    (lat ← convert_to_degrees v; Return (Some (if eq_str r "S" then (- lat)%float else lat))).
Proof.
  intros Hv Hr. unfold get_latitude.
  rewrite (contains_Some _ _ _ Hv), (contains_Some _ _ _ Hr).
  rewrite (getitem_Some _ _ _ Hv), (getitem_Some _ _ _ Hr). simpl.
  now destruct (convert_to_degrees v).
Qed.

Lemma get_longitude_present (v r : value) :
  gps_info !! (inl "GPSLongitude" : tag) = Some v ->
  gps_info !! (inl "GPSLongitudeRef" : tag) = Some r ->
  get_longitude gps_info =
    (lon ← convert_to_degrees v; Return (Some (if eq_str r "W" then (- lon)%float else lon))).
Proof.
  intros Hv Hr. unfold get_longitude.
  rewrite (contains_Some _ _ _ Hv), (contains_Some _ _ _ Hr).
  rewrite (getitem_Some _ _ _ Hv), (getitem_Some _ _ _ Hr). simpl.
  now destruct (convert_to_degrees v).
Qed.

Lemma get_latitude_missing :
  gps_info !! (inl "GPSLatitude" : tag) = None \/
  gps_info !! (inl "GPSLatitudeRef" : tag) = None ->
  get_latitude gps_info = Return None.
Proof.
  intros [H | H]; unfold get_latitude; rewrite (contains_None _ _ H);
    [reflexivity | now rewrite andb_false_r].
Qed.

Lemma get_longitude_missing :
  gps_info !! (inl "GPSLongitude" : tag) = None \/
  gps_info !! (inl "GPSLongitudeRef" : tag) = None ->
  get_longitude gps_info = Return None.
Proof.
  intros [H | H]; unfold get_longitude; rewrite (contains_None _ _ H);
    [reflexivity | now rewrite andb_false_r].
Qed.

(** With one of [lat] and [lon] unassigned and nothing raised before
    the dictionary display, the display raises [UnboundLocalError]. *)
Lemma resolve_unassigned_local (lat lon alt : option float) :
  get_latitude gps_info = Return lat ->
  get_longitude gps_info = Return lon ->
  get_altitude gps_info = Return alt ->
  lat = None \/ lon = None ->
  resolve gps_info = Raise UnboundLocalError.
Proof.
  intros Hlat Hlon Halt H. unfold resolve. rewrite Hlat, Hlon, Halt. simpl.
  destruct H as [-> | ->]; [reflexivity | now destruct lat].
Qed.

Lemma get_altitude_absent :
  gps_info !! (inl "GPSAltitude" : tag) = None -> get_altitude gps_info = Return None.
Proof. intros H. unfold get_altitude. now rewrite (contains_None _ _ H). Qed.

Lemma get_altitude_present (a : value) :
  gps_info !! (inl "GPSAltitude" : tag) = Some a ->
  get_altitude gps_info =
    (x ← py_float a; Return (Some (if altitude_ref_is_1 gps_info then (- x)%float else x))).
Proof.
  intros H. unfold get_altitude.
  now rewrite (contains_Some _ _ _ H), (getitem_Some _ _ _ H).
Qed.

(** The altitude block raises nothing when the altitude is absent or
    converts to a float. *)
Lemma get_altitude_total :
  gps_info !! (inl "GPSAltitude" : tag) = None \/
  (exists a x, gps_info !! (inl "GPSAltitude" : tag) = Some a /\ py_float a = Return x) ->
  exists alt, get_altitude gps_info = Return alt.
Proof.
  intros [H | (a & x & H & Hx)].
  - exists None. now apply get_altitude_absent.
  - rewrite (get_altitude_present _ H), Hx. simpl. eauto.
Qed.

End Blocks.

(** ** One pair of fields missing *)

(** The part of the claim that the code does keep: whenever a pair is
    incomplete, no coordinates come back, half-populated or other. *)
Lemma resolve_incomplete_pair (gps_info : gmap tag value) (c : Coordinates) :
  get_latitude gps_info = Return None \/ get_longitude gps_info = Return None ->
  resolve gps_info <> Return (Some c).
Proof.
  intros H. unfold resolve.
  destruct (get_latitude gps_info) as [[lat|]|e]; simpl; try discriminate;
    destruct (get_longitude gps_info) as [[lon|]|e']; simpl; try discriminate;
    destruct (get_altitude gps_info) as [alt|e'']; simpl; try discriminate.
  destruct H; discriminate.
Qed.

(** An uncaught exception is not turned into [None] by the handler. *)
Lemma try_except_uncaught {A : Type} (e : exn) (handler : result A) :
  caught e = false -> try_except (Raise e) handler = Raise e.
Proof. intros H. unfold try_except. now rewrite H. Qed.

(** The general form: a complete pair beside an incomplete one, and an
    altitude block that raises nothing. *)
Lemma get_gps_coordinates_unassigned_local
    (exif : RawMetadata) (gps_info : gmap tag value) (lat lon alt : option float) :
  GPSInfo exif = Some gps_info ->
  get_latitude gps_info = Return lat ->
  get_longitude gps_info = Return lon ->
  get_altitude gps_info = Return alt ->
  lat = None \/ lon = None ->
  get_gps_coordinates (Some exif) = Raise UnboundLocalError.
Proof.
  intros Hg Hlat Hlon Halt H.
  rewrite (get_gps_coordinates_GPSInfo _ _ Hg).
  rewrite (resolve_unassigned_local _ _ _ _ Hlat Hlon Halt H).
  now apply try_except_uncaught.
Qed.

(** C1: with the latitude pair alone, or the longitude pair alone, the
    resolver does not return None: reading the local that was never
    assigned raises UnboundLocalError, which the handler does not
    catch. *)
Theorem get_gps_coordinates_half_populated_raises :
  get_gps_coordinates (Some latitude_only) = Raise UnboundLocalError /\
  get_gps_coordinates (Some longitude_only) = Raise UnboundLocalError.
Proof. split; reflexivity. Qed.

(** A triple whose three components convert gives the sexagesimal sum,
    computed left to right in binary64. *)
Lemma convert_to_degrees_triple (d m s : value) (fd fm fs : float) :
  py_float d = Return fd -> py_float m = Return fm -> py_float s = Return fs ->
  convert_to_degrees (VTuple [d; m; s]) = Return (fd + fm / 60 + fs / 3600)%float.
Proof. intros Hd Hm Hs. unfold convert_to_degrees. simpl. now rewrite Hd, Hm, Hs. Qed.

(** ** Decimal degrees and the hemisphere sign *)

(** C2: with GPSLatitude a triple (d, m, s) of numbers and
    GPSLatitudeRef "N" or "S", and the same for the longitude with "E"
    or "W", the resolver returns coordinates whose latitude is
    d + m/60 + s/3600, negated exactly when the reference is "S", and
    whose longitude is the same sum, negated exactly when the reference
    is "W". *)
Theorem get_gps_coordinates_decimal_degrees
    (exif : RawMetadata) (gps_info : gmap tag value)
    (d m s d' m' s' : value) (latref lonref : string)
    (fd fm fs fd' fm' fs' : float) :
  GPSInfo exif = Some gps_info ->
  gps_info !! (inl "GPSLatitude" : tag) = Some (VTuple [d; m; s]) ->
  gps_info !! (inl "GPSLatitudeRef" : tag) = Some (VStr latref) ->
  gps_info !! (inl "GPSLongitude" : tag) = Some (VTuple [d'; m'; s']) ->
  gps_info !! (inl "GPSLongitudeRef" : tag) = Some (VStr lonref) ->
  latref = "N" \/ latref = "S" ->
  lonref = "E" \/ lonref = "W" ->
  py_float d = Return fd -> py_float m = Return fm -> py_float s = Return fs ->
  py_float d' = Return fd' -> py_float m' = Return fm' -> py_float s' = Return fs' ->
  gps_info !! (inl "GPSAltitude" : tag) = None \/
  (exists a x, gps_info !! (inl "GPSAltitude" : tag) = Some a /\ py_float a = Return x) ->
  exists alt,
    get_gps_coordinates (Some exif) =
    Return (Some {|
      latitude := if String.eqb latref "S"
                  then (- (fd + fm / 60 + fs / 3600))%float
                  else (fd + fm / 60 + fs / 3600)%float;
      longitude := if String.eqb lonref "W"
                   then (- (fd' + fm' / 60 + fs' / 3600))%float
                   else (fd' + fm' / 60 + fs' / 3600)%float;
      altitude := alt |}).
Proof.
  intros Hg Hlat Hlatref Hlon Hlonref _ _ Hd Hm Hs Hd' Hm' Hs' Halt.
  destruct (get_altitude_total gps_info Halt) as [alt Ha].
  exists alt.
  rewrite (get_gps_coordinates_GPSInfo _ _ Hg). unfold resolve.
  rewrite (get_latitude_present _ _ _ Hlat Hlatref),
          (get_longitude_present _ _ _ Hlon Hlonref), Ha.
  rewrite (convert_to_degrees_triple _ _ _ _ _ _ Hd Hm Hs),
          (convert_to_degrees_triple _ _ _ _ _ _ Hd' Hm' Hs').
  reflexivity.
Qed.

Lemma get_gps_coordinates_decimal_degrees_witness :
  exists alt,
    get_gps_coordinates (Some pittsburgh) =
    Return (Some {| latitude := (40 + 26 / 60 + 46 / 3600)%float;
                    longitude := (- (79 + 58 / 60 + 56 / 3600))%float;
                    altitude := alt |}).
Proof.
  apply (get_gps_coordinates_decimal_degrees pittsburgh pittsburgh_gps
           (VInt 40) (VInt 26) (VInt 46) (VInt 79) (VInt 58) (VInt 56) "N" "W"
           40 26 46 79 58 56);
    try reflexivity.
  - left; reflexivity.
  - right; reflexivity.
  - left; reflexivity.
Defined.

(** ** The altitude and its reference *)

Lemma altitude_ref_absent (gps_info : gmap tag value) :
  gps_info !! (inl "GPSAltitudeRef" : tag) = None -> altitude_ref_is_1 gps_info = false.
Proof. intros H. unfold altitude_ref_is_1, dict_get. now rewrite H. Qed.

Lemma altitude_ref_present (gps_info : gmap tag value) (r : value) :
  gps_info !! (inl "GPSAltitudeRef" : tag) = Some r -> altitude_ref_is_1 gps_info = eq_int r 1.
Proof. intros H. unfold altitude_ref_is_1, dict_get. now rewrite H. Qed.

(** C9: when the latitude and the longitude resolve and GPSAltitude
    converts to the float x, the resolver returns coordinates whose
    altitude is x itself when GPSAltitudeRef is absent, and, when the
    reference is present, is negated exactly when the reference equals
    the integer 1. *)
Theorem get_gps_coordinates_altitude_reference
    (exif : RawMetadata) (gps_info : gmap tag value)
    (vlat rlat vlon rlon a : value) (lat lon x : float) :
  GPSInfo exif = Some gps_info ->
  gps_info !! (inl "GPSLatitude" : tag) = Some vlat ->
  gps_info !! (inl "GPSLatitudeRef" : tag) = Some rlat ->
  gps_info !! (inl "GPSLongitude" : tag) = Some vlon ->
  gps_info !! (inl "GPSLongitudeRef" : tag) = Some rlon ->
  convert_to_degrees vlat = Return lat ->
  convert_to_degrees vlon = Return lon ->
  gps_info !! (inl "GPSAltitude" : tag) = Some a ->
  py_float a = Return x ->
  exists c,
    get_gps_coordinates (Some exif) = Return (Some c) /\
    (gps_info !! (inl "GPSAltitudeRef" : tag) = None -> altitude c = Some x) /\
    (forall r, gps_info !! (inl "GPSAltitudeRef" : tag) = Some r ->
               altitude c = Some (if eq_int r 1 then (- x)%float else x)).
Proof.
  intros Hg Hlat Hlatref Hlon Hlonref Hclat Hclon Ha Hx.
  eexists. split; [| split].
  - rewrite (get_gps_coordinates_GPSInfo _ _ Hg). unfold resolve.
    rewrite (get_latitude_present _ _ _ Hlat Hlatref),
            (get_longitude_present _ _ _ Hlon Hlonref),
            (get_altitude_present _ _ Ha), Hclat, Hclon, Hx.
    reflexivity.
  - intros Hr. simpl. now rewrite (altitude_ref_absent _ Hr).
  - intros r Hr. simpl. now rewrite (altitude_ref_present _ _ Hr).
Qed.

Lemma get_gps_coordinates_altitude_reference_witness :
  (exists c,
     get_gps_coordinates (Some altitude_without_ref) = Return (Some c) /\
     altitude c = Some 120.5%float) /\
  (exists c,
     get_gps_coordinates (Some below_sea_level) = Return (Some c) /\
     altitude c = Some (-10)%float).
Proof.
  split.
  - destruct (get_gps_coordinates_altitude_reference altitude_without_ref
                (<[inl "GPSAltitude" := VFloat 120.5]> pittsburgh_gps)
                (dms 40 26 46) (VStr "N") (dms 79 58 56) (VStr "W") (VFloat 120.5)
                (40 + 26 / 60 + 46 / 3600)%float (79 + 58 / 60 + 56 / 3600)%float 120.5%float
                eq_refl eq_refl eq_refl eq_refl eq_refl eq_refl eq_refl eq_refl eq_refl)
      as (c & Hc & Habsent & _).
    exists c. split; [exact Hc | apply Habsent; reflexivity].
  - destruct (get_gps_coordinates_altitude_reference below_sea_level
                (<[inl "GPSAltitude" := VFloat 10]>
                   (<[inl "GPSAltitudeRef" := VInt 1]> pittsburgh_gps))
                (dms 40 26 46) (VStr "N") (dms 79 58 56) (VStr "W") (VFloat 10)
                (40 + 26 / 60 + 46 / 3600)%float (79 + 58 / 60 + 56 / 3600)%float 10%float
                eq_refl eq_refl eq_refl eq_refl eq_refl eq_refl eq_refl eq_refl eq_refl)
      as (c & Hc & _ & Hpresent).
    exists c. split; [exact Hc | exact (Hpresent (VInt 1) eq_refl)].
Defined.

(** The reference is compared with [==]: the integer 1 and the float
    1.0 are equal to 1, a text and any other number are not. *)
Example altitude_reference_values :
  eq_int (VInt 1) 1 = true /\ eq_int (VFloat 1) 1 = true /\
  eq_int (VInt 0) 1 = false /\ eq_int (VInt 2) 1 = false /\ eq_int (VStr "1") 1 = false.
Proof. repeat split; reflexivity. Qed.

(** ** Malformed latitude or longitude *)

(** A tuple that does not have exactly three items cannot be unpacked. *)
Lemma convert_to_degrees_wrong_length (l : list value) :
  length l <> 3%nat -> convert_to_degrees (VTuple l) = Raise ValueError.
Proof.
  intros H. unfold convert_to_degrees. simpl.
  destruct l as [|a [|b [|c [|d l]]]]; try reflexivity. now contradiction H.
Qed.

(** The same for a text that does not have exactly three characters. *)
Lemma convert_to_degrees_wrong_length_str (s : string) :
  String.length s <> 3%nat -> convert_to_degrees (VStr s) = Raise ValueError.
Proof.
  intros H. unfold convert_to_degrees. simpl.
  destruct s as [|a [|b [|c [|d s]]]]; try reflexivity. now contradiction H.
Qed.

(** A number cannot be unpacked at all. *)
Lemma convert_to_degrees_not_iterable (v : value) :
  (exists z, v = VInt z) \/ (exists f, v = VFloat f) ->
  convert_to_degrees v = Raise TypeError.
Proof. intros [[z ->] | [f ->]]; reflexivity. Qed.

(** In a triple, the first component that is no number decides the
    outcome. *)
Lemma convert_to_degrees_bad_component (d m s : value) (e : exn) :
  py_float d = Raise e \/
  (exists fd, py_float d = Return fd /\
     (py_float m = Raise e \/
      exists fm, py_float m = Return fm /\ py_float s = Raise e)) ->
  convert_to_degrees (VTuple [d; m; s]) = Raise e.
Proof.
  unfold convert_to_degrees. simpl.
  intros [Hd | (fd & Hd & [Hm | (fm & Hm & Hs)])].
  - now rewrite Hd.
  - now rewrite Hd, Hm.
  - now rewrite Hd, Hm, Hs.
Qed.

(** [float()] returns, or raises one of three errors; [OverflowError]
    comes from an [int] beyond the range of the floats only. *)
Lemma py_float_outcomes (v : value) :
  (exists x, py_float v = Return x) \/
  conversion_fault (py_float v) \/
  ((exists z, v = VInt z) /\ py_float v = Raise OverflowError).
Proof.
  destruct v as [z|f|s|l]; simpl.
  - unfold Py.float_of_int. destruct (is_infinity (Py.float_of_Z z)); eauto.
  - eauto.
  - destruct (Py.float_of_string s); [eauto | right; left; now left].
  - right; left; now right.
Qed.

(** So does [convert_to_degrees]. *)
Lemma convert_to_degrees_outcomes (v : value) :
  (exists x, convert_to_degrees v = Return x) \/
  conversion_fault (convert_to_degrees v) \/
  convert_to_degrees v = Raise OverflowError.
Proof.
  unfold convert_to_degrees.
  destruct (unpack3 v) as [[[d m] s]|e] eqn:Hu; simpl.
  - destruct (py_float_outcomes d) as [[fd ->] | [[-> | ->] | [_ ->]]]; simpl;
      try (right; left; unfold conversion_fault; tauto); try tauto.
    destruct (py_float_outcomes m) as [[fm ->] | [[-> | ->] | [_ ->]]]; simpl;
      try (right; left; unfold conversion_fault; tauto); try tauto.
    destruct (py_float_outcomes s) as [[fs ->] | [[-> | ->] | [_ ->]]]; simpl;
      try (right; left; unfold conversion_fault; tauto); try tauto.
    left. eauto.
  - right; left. unfold unpack3 in Hu.
    destruct v as [z|f|t|l]; simpl in Hu; try (injection Hu as <-; now right).
    + destruct (chars t) as [|a [|b [|c [|x r]]]]; simpl in Hu;
        try discriminate; injection Hu as <-; now left.
    + destruct l as [|a [|b [|c [|x r]]]]; simpl in Hu;
        try discriminate; injection Hu as <-; now left.
Qed.









(** ** The point text *)

Lemma truthy_altitude_None (c : Coordinates) :
  altitude c = None -> truthy_altitude c = None.
Proof. intros H. unfold truthy_altitude. now rewrite H. Qed.

Lemma truthy_altitude_Some (c : Coordinates) (a : float) :
  altitude c = Some a -> float_truthy a = true -> truthy_altitude c = Some a.
Proof. intros H Ha. unfold truthy_altitude. now rewrite H, Ha. Qed.

Lemma coords_text_without_altitude (c : Coordinates) :
  altitude c = None ->
  coords_text c = Py.float_repr (longitude c) ++ "," ++ Py.float_repr (latitude c).
Proof. intros H. unfold coords_text. now rewrite (truthy_altitude_None _ H). Qed.

Lemma coords_text_with_altitude (c : Coordinates) (a : float) :
  altitude c = Some a -> float_truthy a = true ->
  coords_text c =
  Py.float_repr (longitude c) ++ "," ++ Py.float_repr (latitude c) ++ "," ++ Py.float_repr a.
Proof. intros H Ha. unfold coords_text. now rewrite (truthy_altitude_Some _ _ H Ha). Qed.

(** C5, as the code has it: for coordinates whose altitude is absent or
    is not zero, the point text is the longitude, the latitude and,
    when present, the altitude, separated by commas and each printed by
    str(), that is in full and without rounding. *)
Theorem coords_text_unrounded (c : Coordinates) :
  altitude c = None \/ (exists a, altitude c = Some a /\ float_truthy a = true) ->
  coords_text c =
  match altitude c with
  | None => Py.float_repr (longitude c) ++ "," ++ Py.float_repr (latitude c)
  | Some a =>
      Py.float_repr (longitude c) ++ "," ++ Py.float_repr (latitude c) ++ "," ++
      Py.float_repr a
  end.
Proof.
  intros [H | (a & H & Ha)].
  - rewrite H. now apply coords_text_without_altitude.
  - rewrite H. now apply coords_text_with_altitude.
Qed.

Lemma coords_text_unrounded_witness :
  coords_text pittsburgh_coordinates = "-79.98222222222222,40.44611111111111".
Proof. exact (coords_text_unrounded pittsburgh_coordinates (or_introl eq_refl)). Defined.

(** The spec's scenario run through the resolver and the builder: the
    point text carries every digit of the two floats, not the six
    decimals of the claim. *)
Lemma coords_text_rounding_counterexample :
  get_gps_coordinates (Some pittsburgh) = Return (Some pittsburgh_coordinates) /\
  spec_coords_text pittsburgh_coordinates = "-79.982222,40.446111" /\
  coords_text pittsburgh_coordinates <> spec_coords_text pittsburgh_coordinates.
Proof.
  split; [reflexivity | split; [reflexivity |]].
  vm_compute. discriminate.
Qed.

(** Read back by [float()], the two numbers of that text are the input
    coordinates again. *)
Example pittsburgh_text_reads_back :
  Py.float_of_string "-79.98222222222222" = Some (longitude pittsburgh_coordinates) /\
  Py.float_of_string "40.44611111111111" = Some (latitude pittsburgh_coordinates).
Proof. split; reflexivity. Qed.

(** C6: an altitude of 0.0 is present in the coordinates, yet the point
    text stops after the latitude: the test on the altitude is a truth
    test, and 0.0 is false. *)
Theorem coords_text_zero_altitude (lat lon : float) :
  coords_text {| latitude := lat; longitude := lon; altitude := Some 0%float |} =
  Py.float_repr lon ++ "," ++ Py.float_repr lat.
Proof. reflexivity. Qed.

Example sea_level_point_text :
  coords_text {| latitude := 40.5; longitude := (-79.75); altitude := Some 0%float |} =
  "-79.75,40.5".
Proof. reflexivity. Qed.

Example nonzero_altitude_point_text :
  coords_text {| latitude := 40.5; longitude := (-79.75); altitude := Some 35%float |} =
  "-79.75,40.5,35.0".
Proof. reflexivity. Qed.

(** ** The document *)

Section Builder.

Variable serialize : element -> result string.

(** C8: two calls of the builder with identical display name,
    coordinates, reference URL and timestamp give identical text. *)
Theorem create_kml_deterministic
    (name1 name2 : string) (c1 c2 : Coordinates) (url1 url2 : string)
    (ts1 ts2 : option value) :
  name1 = name2 ->
  latitude c1 = latitude c2 -> longitude c1 = longitude c2 -> altitude c1 = altitude c2 ->
  url1 = url2 -> ts1 = ts2 ->
  create_kml serialize name1 c1 url1 ts1 = create_kml serialize name2 c2 url2 ts2.
Proof.
  destruct c1, c2. simpl. intros -> -> -> -> -> ->. reflexivity.
Qed.

(** The builder reads the altitude only through its truth value, so an
    altitude of 0.0 leaves no trace in the document. *)
Lemma create_kml_zero_altitude (name : string) (lat lon : float) (url : string)
    (ts : option value) :
  create_kml serialize name {| latitude := lat; longitude := lon; altitude := Some 0%float |}
    url ts =
  create_kml serialize name {| latitude := lat; longitude := lon; altitude := None |} url ts.
Proof. reflexivity. Qed.

(** C4, as the code has it: the timestamp the handler passes to the
    builder is the value of DateTime, falling back to DateTimeOriginal
    when DateTime is absent. *)
Theorem upload_file_timestamp
    (filename : string) (exif : RawMetadata) (photo_url : string) (c : Coordinates) :
  get_gps_coordinates (Some exif) = Return (Some c) ->
  upload_file serialize filename (Some exif) photo_url =
  let timestamp :=
    match flat_tags exif !! (inl "DateTime" : tag) with
    | Some v => Some v
    | None => flat_tags exif !! (inl "DateTimeOriginal" : tag)
    end in
  kml_content ← create_kml serialize filename c photo_url timestamp;
  Return (Success kml_content c timestamp).
Proof.
  intros H. unfold upload_file.
  destruct (is_empty exif) eqn:He.
  - unfold get_gps_coordinates in H. rewrite He in H. discriminate.
  - rewrite H. simpl. unfold upload_timestamp, dict_get.
    destruct (flat_tags exif !! (inl "DateTime" : tag)); [reflexivity |].
    now destruct (flat_tags exif !! (inl "DateTimeOriginal" : tag)).
Qed.

End Builder.

Lemma create_kml_deterministic_witness :
  create_kml Xml.toprettyxml "photo.jpg" pittsburgh_coordinates "http://host/uploads/p.jpg" None =
  create_kml Xml.toprettyxml "photo.jpg"
    {| latitude := (40 + 26 / 60 + 46 / 3600)%float;
       longitude := (- (79 + 58 / 60 + 56 / 3600))%float;
       altitude := None |}
    "http://host/uploads/p.jpg" None.
Proof.
  apply create_kml_deterministic; reflexivity.
Defined.

Lemma upload_file_timestamp_witness :
  upload_file Xml.toprettyxml "photo.jpg" (Some both_dates) "http://host/uploads/p.jpg" =
  (kml_content ← create_kml Xml.toprettyxml "photo.jpg" pittsburgh_coordinates
                   "http://host/uploads/p.jpg" (Some (VStr "2024:03:01 10:00:00"));
   Return (Success kml_content pittsburgh_coordinates (Some (VStr "2024:03:01 10:00:00")))).
Proof.
  exact (upload_file_timestamp Xml.toprettyxml "photo.jpg" both_dates
           "http://host/uploads/p.jpg" pittsburgh_coordinates eq_refl).
Defined.

(** With both date tags present the handler passes DateTime, where the
    claim has DateTimeOriginal. *)
Lemma upload_timestamp_counterexample :
  upload_timestamp both_dates = Some (VStr "2024:03:01 10:00:00") /\
  spec_timestamp both_dates = Some (VStr "2024:02:28 17:45:12") /\
  upload_timestamp both_dates <> spec_timestamp both_dates.
Proof.
  split; [reflexivity | split; [reflexivity |]].
  vm_compute. discriminate.
Qed.

(** ** Altitude zero and altitude below sea level *)

(** C3: the resolver keeps an altitude of 0.0 with reference 0 (it is
    present in the coordinates), but the document built from it is the
    document built without any altitude, so no 0.00 is rendered; and
    an altitude of 10.0 with reference 1 resolves to -10.0. *)
Theorem zero_altitude_omitted_from_document :
  get_gps_coordinates (Some sea_level) =
    Return (Some {| latitude := latitude pittsburgh_coordinates;
                    longitude := longitude pittsburgh_coordinates;
                    altitude := Some 0%float |}) /\
  (forall serialize name lat lon url ts,
     create_kml serialize name
       {| latitude := lat; longitude := lon; altitude := Some 0%float |} url ts =
     create_kml serialize name
       {| latitude := lat; longitude := lon; altitude := None |} url ts) /\
  get_gps_coordinates (Some below_sea_level) =
    Return (Some {| latitude := latitude pittsburgh_coordinates;
                    longitude := longitude pittsburgh_coordinates;
                    altitude := Some (-10)%float |}).
Proof.
  split; [reflexivity | split; [| reflexivity]].
  intros. apply create_kml_zero_altitude.
Qed.

(** What the claim expects for the zero altitude, and what the
    description holds when the altitude is not zero. *)
Example format_fixed_zero : Py.format_fixed 2 0%float = "0.00".
Proof. reflexivity. Qed.

(** * Further properties *)

(** ** Characters and pieces of a text *)

Lemma append_nil_l (s : string) : "" ++ s = s.
Proof. reflexivity. Qed.

Lemma append_cons (c : ascii) (a b : string) : String c a ++ b = String c (a ++ b).
Proof. reflexivity. Qed.

Lemma has_char_cons (c a : ascii) (s : string) :
  Py.has_char c (String a s) = Ascii.eqb c a || Py.has_char c s.
Proof. reflexivity. Qed.

Lemma has_char_append (c : ascii) (a b : string) :
  Py.has_char c (a ++ b) = Py.has_char c a || Py.has_char c b.
Proof.
  induction a as [|x a IH]; [reflexivity |].
  rewrite append_cons, !has_char_cons, IH. now rewrite orb_assoc.
Qed.

Lemma rsplit_last_None (sep : ascii) (s : string) :
  rsplit_last sep s = None <-> Py.has_char sep s = false.
Proof.
  induction s as [|a r IH]; simpl; [easy |].
  rewrite has_char_cons, (Ascii.eqb_sym sep a).
  destruct (rsplit_last sep r) as [[b e]|].
  - split; [discriminate |]. intros H. apply orb_false_elim in H as [_ H].
    apply IH in H. discriminate.
  - destruct (Ascii.eqb a sep); simpl; [easy |]. now rewrite <- IH.
Qed.

(** [rsplit_last] cuts at the last separator: what follows holds none. *)
Lemma rsplit_last_Some (sep : ascii) (s before after : string) :
  rsplit_last sep s = Some (before, after) <->
  s = before ++ String sep after /\ Py.has_char sep after = false.
Proof.
  revert before. induction s as [|a r IH]; intros before; simpl.
  - split; [discriminate |]. intros [H _]. now destruct before.
  - destruct (rsplit_last sep r) as [[b e]|] eqn:Hr.
    + split.
      * intros [= <- <-]. destruct (proj1 (IH b) eq_refl) as [-> He]. now split.
      * intros [H He]. destruct before as [|x before].
        -- rewrite append_nil_l in H. injection H as -> ->.
           apply rsplit_last_None in He. congruence.
        -- rewrite append_cons in H. injection H as -> H.
           assert (Some (b, e) = Some (before, after)) as [= -> ->]
             by (apply IH; now split).
           reflexivity.
    + apply rsplit_last_None in Hr. split.
      * destruct (Ascii.eqb a sep) eqn:Ha; [| discriminate].
        intros [= <- <-]. apply Ascii.eqb_eq in Ha as ->. now split.
      * intros [H He]. destruct before as [|x before].
        -- rewrite append_nil_l in H. injection H as -> ->.
           now rewrite Ascii.eqb_refl.
        -- rewrite append_cons in H. injection H as -> H. subst r.
           rewrite has_char_append, has_char_cons, Ascii.eqb_refl in Hr.
           now rewrite orb_true_r in Hr.
Qed.

Lemma has_char_rsplit_last (sep : ascii) (s : string) :
  Py.has_char sep s = true -> exists before after, rsplit_last sep s = Some (before, after).
Proof.
  intros H. destruct (rsplit_last sep s) as [[b e]|] eqn:Hr; [eauto |].
  apply rsplit_last_None in Hr. congruence.
Qed.

(** The extension of a name is the lower-cased text after its last
    dot. *)
Lemma file_extension_append (stem ext : string) :
  Py.has_char "." ext = false ->
  file_extension (stem ++ "." ++ ext) = str_lower ext.
Proof.
  intros H. unfold file_extension, rsplit1.
  now rewrite (proj2 (rsplit_last_Some "." (stem ++ "." ++ ext) stem ext) (conj eq_refl H)).
Qed.

Lemma has_char_dot_append (stem ext : string) :
  Py.has_char "." (stem ++ "." ++ ext) = true.
Proof.
  rewrite has_char_append.
  change ("." ++ ext) with (String "." ext).
  rewrite has_char_cons. simpl. now rewrite orb_true_r.
Qed.

Lemma elem_of_ALLOWED_EXTENSIONS (ext : string) :
  ext ∈ ALLOWED_EXTENSIONS <->
  ext = "jpg" \/ ext = "jpeg" \/ ext = "png" \/ ext = "tiff" \/ ext = "heic".
Proof.
  unfold ALLOWED_EXTENSIONS. rewrite elem_of_list_to_set, !elem_of_cons, elem_of_nil.
  tauto.
Qed.

(** ** Which names [allowed_file] accepts *)

(** X1: a name is accepted exactly when it is a stem, a dot and an
    extension without a dot whose lower-cased form is one of the five
    allowed ones; only the text after the last dot is looked at. *)
Theorem allowed_file_spec (filename : string) :
  allowed_file filename = true <->
  exists stem ext,
    filename = stem ++ "." ++ ext /\
    Py.has_char "." ext = false /\
    str_lower ext ∈ ALLOWED_EXTENSIONS.
Proof.
  unfold allowed_file. rewrite andb_true_iff, bool_decide_eq_true. split.
  - intros [Hdot Hext].
    destruct (has_char_rsplit_last _ _ Hdot) as (stem & ext & Hr).
    apply rsplit_last_Some in Hr as [-> He].
    exists stem, ext. split; [reflexivity | split; [exact He |]].
    now rewrite (file_extension_append _ _ He) in Hext.
  - intros (stem & ext & -> & He & Hin). split.
    + apply has_char_dot_append.
    + now rewrite (file_extension_append _ _ He).
Qed.

Lemma allowed_file_append (stem ext : string) :
  Py.has_char "." ext = false ->
  allowed_file (stem ++ "." ++ ext) = bool_decide (str_lower ext ∈ ALLOWED_EXTENSIONS).
Proof.
  intros H. unfold allowed_file.
  now rewrite has_char_dot_append, (file_extension_append _ _ H).
Qed.

(** X2: the stem and the case of the extension do not matter: two names
    whose last extensions agree once lower-cased are both accepted or
    both rejected. *)
Theorem allowed_file_last_extension (stem1 stem2 ext1 ext2 : string) :
  Py.has_char "." ext1 = false ->
  Py.has_char "." ext2 = false ->
  str_lower ext1 = str_lower ext2 ->
  allowed_file (stem1 ++ "." ++ ext1) = allowed_file (stem2 ++ "." ++ ext2).
Proof.
  intros H1 H2 H. now rewrite (allowed_file_append _ _ H1), (allowed_file_append _ _ H2), H.
Qed.

Lemma allowed_file_last_extension_witness :
  allowed_file ("script.exe" ++ "." ++ "JpG") = allowed_file ("photo" ++ "." ++ "jpg").
Proof. apply allowed_file_last_extension; reflexivity. Defined.

(** An allowed extension holds no dot and is in lower case already. *)
Lemma ALLOWED_EXTENSIONS_plain (ext : string) :
  ext ∈ ALLOWED_EXTENSIONS -> Py.has_char "." ext = false /\ str_lower ext = ext.
Proof.
  rewrite elem_of_ALLOWED_EXTENSIONS.
  intros [-> | [-> | [-> | [-> | ->]]]]; split; reflexivity.
Qed.

(** X3: the name under which an accepted upload is stored, the random
    id, a dot and the lower-cased extension, is itself an accepted name,
    and its extension is one of the five allowed ones, whatever the
    id. *)
Theorem stored_name_allowed (filename photo_id : string) :
  allowed_file filename = true ->
  file_extension filename ∈ ALLOWED_EXTENSIONS /\
  allowed_file (photo_id ++ "." ++ file_extension filename) = true.
Proof.
  intros H. unfold allowed_file in H. apply andb_true_iff in H as [_ H].
  apply bool_decide_eq_true in H. split; [exact H |].
  destruct (ALLOWED_EXTENSIONS_plain _ H) as [Hdot Hlow].
  rewrite (allowed_file_append _ _ Hdot), Hlow. now apply bool_decide_eq_true.
Qed.

Lemma stored_name_allowed_witness :
  file_extension "Holiday.TIFF" ∈ ALLOWED_EXTENSIONS /\
  allowed_file ("0f3c" ++ "." ++ file_extension "Holiday.TIFF") = true.
Proof. apply stored_name_allowed. reflexivity. Defined.

(** ** The handler and the files it writes *)

Section HandlerProperties.

Variable serialize : element -> result string.
Variable url_for : string -> string -> string.
Variable json_serializable : option value -> bool.

(** X4: a request without a photo part, with an empty file name, or
    with a name [allowed_file] rejects is answered with status 400 and
    nothing is written to either folder. *)
Theorem upload_file_handler_rejected
    (photo : option string) (photo_id kml_id : string) (exif_data : option RawMetadata) :
  photo = None \/ photo = Some "" \/
  (exists filename, photo = Some filename /\ allowed_file filename = false) ->
  exists error,
    upload_file_handler serialize url_for json_serializable photo photo_id kml_id exif_data =
    ([], Return (Json400 error)).
Proof.
  intros [-> | [-> | (filename & -> & H)]]; simpl; eauto.
  unfold upload_file_handler. rewrite H. destruct (String.eqb filename ""); eauto.
Qed.

(** X5: an accepted upload is saved before its metadata is looked at:
    whatever the outcome, an answer with status 400 or 200 or an
    escaping exception, the first file written is the photo, in the
    upload folder, under the random id and the lower-cased
    extension. *)
Theorem upload_file_handler_saves_first
    (filename photo_id kml_id : string) (exif_data : option RawMetadata) :
  filename <> "" ->
  allowed_file filename = true ->
  exists rest,
    fst (upload_file_handler serialize url_for json_serializable
           (Some filename) photo_id kml_id exif_data) =
    FileSave (path_join UPLOAD_FOLDER (photo_id ++ "." ++ file_extension filename)) :: rest /\
    (rest = [] \/ exists kml_content,
        rest = [FileWrite (path_join KML_FOLDER (kml_id ++ ".kml")) kml_content]).
Proof.
  intros Hne Hal. unfold upload_file_handler.
  apply String.eqb_neq in Hne. rewrite Hne, Hal.
  destruct (upload_file _ _ _ _) as [[error | kml c ts] | e]; simpl; eauto.
Qed.

(** X6: a KML file is written only once every test of the handler has
    passed: if the handler writes a file with [write], the request
    named a photo, the resolver returned coordinates for its metadata,
    the file is [kml_files/<id>.kml], and its content is the text
    [create_kml] returned for these coordinates, the photo's address
    and the timestamp read from the metadata.  The answer that follows
    is the success body, whose KML link names that file, when [jsonify]
    can encode the timestamp; otherwise [TypeError] escapes and the
    files stay written. *)
Theorem upload_file_handler_kml_written
    (photo : option string) (photo_id kml_id : string) (exif_data : option RawMetadata)
    (path content : string) :
  FileWrite path content ∈
    fst (upload_file_handler serialize url_for json_serializable
           photo photo_id kml_id exif_data) ->
  exists filename exif coordinates,
    photo = Some filename /\
    exif_data = Some exif /\
    get_gps_coordinates (Some exif) = Return (Some coordinates) /\
    path = path_join KML_FOLDER (kml_id ++ ".kml") /\
    create_kml serialize filename coordinates
      (url_for "uploaded_file" (photo_id ++ "." ++ file_extension filename))
      (upload_timestamp exif) = Return content /\
    snd (upload_file_handler serialize url_for json_serializable
           photo photo_id kml_id exif_data) =
      if json_serializable (upload_timestamp exif)
      then Return (Json200 (url_for "uploaded_file" (photo_id ++ "." ++ file_extension filename))
                     (url_for "download_kml" (kml_id ++ ".kml"))
                     coordinates (upload_timestamp exif) filename)
      else Raise TypeError.
Proof.
  unfold upload_file_handler. destruct photo as [filename|]; simpl.
  2: { intros H. now apply elem_of_nil in H. }
  destruct (String.eqb filename ""); simpl.
  { intros H. now apply elem_of_nil in H. }
  destruct (allowed_file filename); simpl.
  2: { intros H. now apply elem_of_nil in H. }
  destruct (upload_file _ _ _ _) as [[error | kml c ts] | e] eqn:Hu; simpl;
    rewrite ?elem_of_cons, ?elem_of_nil; intros H.
  - destruct H as [H | []]. discriminate.
  - destruct H as [H | [H | []]]; [discriminate |]. injection H as -> ->.
    unfold upload_file in Hu. destruct exif_data as [exif|]; [| discriminate].
    destruct (is_empty exif); [discriminate |].
    destruct (get_gps_coordinates (Some exif)) as [[c'|]|e'] eqn:Hc; simpl in Hu;
      try discriminate.
    destruct (create_kml _ _ _ _ _) as [k|e'] eqn:Hk; simpl in Hu; [| discriminate].
    injection Hu as -> -> <-.
    exists filename, exif, c. repeat split; assumption || reflexivity.
  - destruct H as [H | []]. discriminate.
Qed.

End HandlerProperties.

Lemma upload_file_handler_rejected_witness :
  exists error,
    upload_file_handler Xml.toprettyxml local_url_for json_encodes (Some "notes.txt") "0f3c" "9a7e"
      (Some pittsburgh) = ([], Return (Json400 error)).
Proof.
  apply upload_file_handler_rejected. right. right.
  exists "notes.txt". split; reflexivity.
Defined.

Lemma upload_file_handler_saves_first_witness :
  exists rest,
    fst (upload_file_handler Xml.toprettyxml local_url_for json_encodes (Some "Holiday.JPG") "0f3c" "9a7e"
           (Some no_gps)) =
    FileSave "uploads/0f3c.jpg" :: rest /\
    (rest = [] \/ exists kml_content, rest = [FileWrite "kml_files/9a7e.kml" kml_content]).
Proof.
  apply (upload_file_handler_saves_first Xml.toprettyxml local_url_for json_encodes
           "Holiday.JPG" "0f3c" "9a7e" (Some no_gps)).
  - discriminate.
  - reflexivity.
Defined.

Lemma upload_file_handler_kml_written_witness :
  exists content,
    create_kml Xml.toprettyxml "Holiday.JPG" pittsburgh_coordinates
      "http://localhost:5000/uploads/0f3c.jpg" None = Return content /\
    snd (upload_file_handler Xml.toprettyxml local_url_for json_encodes
           (Some "Holiday.JPG") "0f3c" "9a7e" (Some pittsburgh)) =
      Return (Json200 "http://localhost:5000/uploads/0f3c.jpg"
                "http://localhost:5000/kml/9a7e.kml" pittsburgh_coordinates None
                "Holiday.JPG").
Proof.
  pose (content :=
          match create_kml Xml.toprettyxml "Holiday.JPG" pittsburgh_coordinates
                  "http://localhost:5000/uploads/0f3c.jpg" None with
          | Return k => k
          | Raise _ => ""
          end).
  destruct (upload_file_handler_kml_written Xml.toprettyxml local_url_for json_encodes
              (Some "Holiday.JPG") "0f3c" "9a7e" (Some pittsburgh)
              "kml_files/9a7e.kml" content)
    as (filename & exif & c & Hf & He & Hc & _ & Hk & Hr).
  - vm_compute. apply list_elem_of_further, list_elem_of_here.
  - exists content. injection Hf as <-. injection He as <-.
    vm_compute in Hc. injection Hc as <-. split; [exact Hk | exact Hr].
Defined.

(** ** What a successful resolution means *)

Lemma contains_true (d : gmap tag value) (k : string) :
  contains d k = true -> exists v, d !! (inl k : tag) = Some v.
Proof. unfold contains. destruct (d !! (inl k : tag)); [eauto | discriminate]. Qed.

Lemma get_latitude_Some (gps_info : gmap tag value) (lat : float) :
  get_latitude gps_info = Return (Some lat) ->
  exists v r x,
    gps_info !! (inl "GPSLatitude" : tag) = Some v /\
    gps_info !! (inl "GPSLatitudeRef" : tag) = Some r /\
    convert_to_degrees v = Return x /\
    lat = if eq_str r "S" then (- x)%float else x.
Proof.
  unfold get_latitude.
  destruct (contains gps_info "GPSLatitude") eqn:H1; [| discriminate].
  destruct (contains gps_info "GPSLatitudeRef") eqn:H2; [| discriminate].
  destruct (contains_true _ _ H1) as [v Hv]. destruct (contains_true _ _ H2) as [r Hr].
  rewrite (getitem_Some _ _ _ Hv), (getitem_Some _ _ _ Hr). simpl.
  destruct (convert_to_degrees v) as [x|e] eqn:Hx; simpl; [| discriminate].
  intros [= <-]. exists v, r, x. repeat split; assumption || reflexivity.
Qed.

Lemma get_longitude_Some (gps_info : gmap tag value) (lon : float) :
  get_longitude gps_info = Return (Some lon) ->
  exists v r x,
    gps_info !! (inl "GPSLongitude" : tag) = Some v /\
    gps_info !! (inl "GPSLongitudeRef" : tag) = Some r /\
    convert_to_degrees v = Return x /\
    lon = if eq_str r "W" then (- x)%float else x.
Proof.
  unfold get_longitude.
  destruct (contains gps_info "GPSLongitude") eqn:H1; [| discriminate].
  destruct (contains gps_info "GPSLongitudeRef") eqn:H2; [| discriminate].
  destruct (contains_true _ _ H1) as [v Hv]. destruct (contains_true _ _ H2) as [r Hr].
  rewrite (getitem_Some _ _ _ Hv), (getitem_Some _ _ _ Hr). simpl.
  destruct (convert_to_degrees v) as [x|e] eqn:Hx; simpl; [| discriminate].
  intros [= <-]. exists v, r, x. repeat split; assumption || reflexivity.
Qed.

Lemma get_altitude_Return (gps_info : gmap tag value) (alt : option float) :
  get_altitude gps_info = Return alt ->
  (gps_info !! (inl "GPSAltitude" : tag) = None /\ alt = None) \/
  (exists a x,
     gps_info !! (inl "GPSAltitude" : tag) = Some a /\ py_float a = Return x /\
     alt = Some (if altitude_ref_is_1 gps_info then (- x)%float else x)).
Proof.
  destruct (gps_info !! (inl "GPSAltitude" : tag)) as [a|] eqn:Ha.
  - rewrite (get_altitude_present _ _ Ha).
    destruct (py_float a) as [x|e] eqn:Hx; simpl; [| discriminate].
    intros [= <-]. right. exists a, x. repeat split; assumption || reflexivity.
  - rewrite (get_altitude_absent _ Ha). intros [= <-]. now left.
Qed.

Lemma try_except_Return_Some {A : Type} (body : result (option A)) (a : A) :
  try_except body (Return None) = Return (Some a) -> body = Return (Some a).
Proof.
  unfold try_except. destruct body as [x|e]; [easy |]. now destruct (caught e).
Qed.

(** X7: whenever the resolver returns coordinates, the GPS block holds
    all four latitude and longitude fields, both values convert, the
    returned angles are the converted ones, negated for the references
    "S" and "W" only, and the returned altitude is absent exactly when
    GPSAltitude is. *)
Theorem get_gps_coordinates_Some
    (exif_data : option RawMetadata) (c : Coordinates) :
  get_gps_coordinates exif_data = Return (Some c) ->
  exists exif gps_info vlat rlat vlon rlon lat lon,
    exif_data = Some exif /\ GPSInfo exif = Some gps_info /\
    gps_info !! (inl "GPSLatitude" : tag) = Some vlat /\
    gps_info !! (inl "GPSLatitudeRef" : tag) = Some rlat /\
    gps_info !! (inl "GPSLongitude" : tag) = Some vlon /\
    gps_info !! (inl "GPSLongitudeRef" : tag) = Some rlon /\
    convert_to_degrees vlat = Return lat /\
    convert_to_degrees vlon = Return lon /\
    latitude c = (if eq_str rlat "S" then (- lat)%float else lat) /\
    longitude c = (if eq_str rlon "W" then (- lon)%float else lon) /\
    ((gps_info !! (inl "GPSAltitude" : tag) = None /\ altitude c = None) \/
     (exists a x,
        gps_info !! (inl "GPSAltitude" : tag) = Some a /\ py_float a = Return x /\
        altitude c = Some (if altitude_ref_is_1 gps_info then (- x)%float else x))).
Proof.
  unfold get_gps_coordinates. destruct exif_data as [exif|]; [| discriminate].
  destruct (is_empty exif); [discriminate |].
  destruct (GPSInfo exif) as [gps_info|] eqn:Hg; [| discriminate].
  intros H. apply try_except_Return_Some in H. unfold resolve in H.
  destruct (get_latitude gps_info) as [[lat'|]|e] eqn:Hlat; simpl in H; try discriminate;
    destruct (get_longitude gps_info) as [[lon'|]|e'] eqn:Hlon; simpl in H; try discriminate;
    destruct (get_altitude gps_info) as [alt|e''] eqn:Halt; simpl in H; try discriminate.
  injection H as <-. simpl.
  destruct (get_latitude_Some _ _ Hlat) as (vlat & rlat & lat & H1 & H2 & H3 & ->).
  destruct (get_longitude_Some _ _ Hlon) as (vlon & rlon & lon & H4 & H5 & H6 & ->).
  exists exif, gps_info, vlat, rlat, vlon, rlon, lat, lon.
  repeat (split; [assumption || reflexivity |]).
  now apply get_altitude_Return.
Qed.

Lemma get_gps_coordinates_Some_witness :
  exists exif gps_info vlat rlat vlon rlon lat lon,
    Some pittsburgh = Some exif /\ GPSInfo exif = Some gps_info /\
    gps_info !! (inl "GPSLatitude" : tag) = Some vlat /\
    gps_info !! (inl "GPSLatitudeRef" : tag) = Some rlat /\
    gps_info !! (inl "GPSLongitude" : tag) = Some vlon /\
    gps_info !! (inl "GPSLongitudeRef" : tag) = Some rlon /\
    convert_to_degrees vlat = Return lat /\
    convert_to_degrees vlon = Return lon /\
    latitude pittsburgh_coordinates = (if eq_str rlat "S" then (- lat)%float else lat) /\
    longitude pittsburgh_coordinates = (if eq_str rlon "W" then (- lon)%float else lon) /\
    ((gps_info !! (inl "GPSAltitude" : tag) = None /\
      altitude pittsburgh_coordinates = None) \/
     (exists a x,
        gps_info !! (inl "GPSAltitude" : tag) = Some a /\ py_float a = Return x /\
        altitude pittsburgh_coordinates =
          Some (if altitude_ref_is_1 gps_info then (- x)%float else x))).
Proof.
  apply (get_gps_coordinates_Some (Some pittsburgh) pittsburgh_coordinates). reflexivity.
Defined.

(** X8: resolution is all or nothing for the altitude too: with both
    angles resolved, a GPSAltitude that [float()] rejects with
    ValueError or TypeError makes the resolver return None, not
    coordinates without altitude. *)
Theorem get_gps_coordinates_altitude_fault
    (exif : RawMetadata) (gps_info : gmap tag value)
    (vlat rlat vlon rlon a : value) (lat lon : float) :
  GPSInfo exif = Some gps_info ->
  gps_info !! (inl "GPSLatitude" : tag) = Some vlat ->
  gps_info !! (inl "GPSLatitudeRef" : tag) = Some rlat ->
  gps_info !! (inl "GPSLongitude" : tag) = Some vlon ->
  gps_info !! (inl "GPSLongitudeRef" : tag) = Some rlon ->
  convert_to_degrees vlat = Return lat ->
  convert_to_degrees vlon = Return lon ->
  gps_info !! (inl "GPSAltitude" : tag) = Some a ->
  conversion_fault (py_float a) ->
  get_gps_coordinates (Some exif) = Return None.
Proof.
  intros Hg Hlat Hlatref Hlon Hlonref Hclat Hclon Ha Hf.
  rewrite (get_gps_coordinates_GPSInfo _ _ Hg). unfold resolve.
  rewrite (get_latitude_present _ _ _ Hlat Hlatref),
          (get_longitude_present _ _ _ Hlon Hlonref),
          (get_altitude_present _ _ Ha), Hclat, Hclon.
  now destruct Hf as [-> | ->].
Qed.

Lemma get_gps_coordinates_altitude_fault_witness :
  get_gps_coordinates (Some (with_altitude (VStr "unknown") (VInt 0))) = Return None.
Proof.
  apply (get_gps_coordinates_altitude_fault (with_altitude (VStr "unknown") (VInt 0))
           (<[inl "GPSAltitude" := VStr "unknown"]>
              (<[inl "GPSAltitudeRef" := VInt 0]> pittsburgh_gps))
           (dms 40 26 46) (VStr "N") (dms 79 58 56) (VStr "W") (VStr "unknown")
           (40 + 26 / 60 + 46 / 3600)%float (79 + 58 / 60 + 56 / 3600)%float);
    try reflexivity.
  left. reflexivity.
Defined.

(** ** The exceptions that escape the resolver *)

Lemma getitem_raises (d : gmap tag value) (k : string) (e : exn) :
  getitem d k = Raise e -> e = KeyError.
Proof. unfold getitem. destruct (d !! (inl k : tag)); now intros [= <-]. Qed.

Lemma convert_to_degrees_raises (v : value) (e : exn) :
  convert_to_degrees v = Raise e -> e = ValueError \/ e = TypeError \/ e = OverflowError.
Proof.
  intros H. destruct (convert_to_degrees_outcomes v) as [[x Hx] | [[Hx | Hx] | Hx]];
    rewrite Hx in H; try discriminate; injection H as <-; auto.
Qed.

Lemma py_float_raises (v : value) (e : exn) :
  py_float v = Raise e -> e = ValueError \/ e = TypeError \/ e = OverflowError.
Proof.
  intros H. destruct (py_float_outcomes v) as [[x Hx] | [[Hx | Hx] | [_ Hx]]];
    rewrite Hx in H; try discriminate; injection H as <-; auto.
Qed.

Lemma get_latitude_raises (gps_info : gmap tag value) (e : exn) :
  get_latitude gps_info = Raise e -> caught e = true \/ e = OverflowError.
Proof.
  unfold get_latitude.
  destruct (_ && _); [| discriminate].
  destruct (getitem gps_info "GPSLatitude") as [v|e1] eqn:H1; simpl.
  2: { intros [= <-]. apply getitem_raises in H1 as ->. now left. }
  destruct (convert_to_degrees v) as [x|e2] eqn:H2; simpl.
  2: { intros [= <-]. apply convert_to_degrees_raises in H2 as [-> | [-> | ->]]; auto. }
  destruct (getitem gps_info "GPSLatitudeRef") as [r|e3] eqn:H3; simpl; [discriminate |].
  intros [= <-]. apply getitem_raises in H3 as ->. now left.
Qed.

Lemma get_longitude_raises (gps_info : gmap tag value) (e : exn) :
  get_longitude gps_info = Raise e -> caught e = true \/ e = OverflowError.
Proof.
  unfold get_longitude.
  destruct (_ && _); [| discriminate].
  destruct (getitem gps_info "GPSLongitude") as [v|e1] eqn:H1; simpl.
  2: { intros [= <-]. apply getitem_raises in H1 as ->. now left. }
  destruct (convert_to_degrees v) as [x|e2] eqn:H2; simpl.
  2: { intros [= <-]. apply convert_to_degrees_raises in H2 as [-> | [-> | ->]]; auto. }
  destruct (getitem gps_info "GPSLongitudeRef") as [r|e3] eqn:H3; simpl; [discriminate |].
  intros [= <-]. apply getitem_raises in H3 as ->. now left.
Qed.

Lemma get_altitude_raises (gps_info : gmap tag value) (e : exn) :
  get_altitude gps_info = Raise e -> caught e = true \/ e = OverflowError.
Proof.
  unfold get_altitude.
  destruct (contains gps_info "GPSAltitude"); [| discriminate].
  destruct (getitem gps_info "GPSAltitude") as [v|e1] eqn:H1; simpl.
  2: { intros [= <-]. apply getitem_raises in H1 as ->. now left. }
  destruct (py_float v) as [x|e2] eqn:H2; simpl; [discriminate |].
  intros [= <-]. apply py_float_raises in H2 as [-> | [-> | ->]]; auto.
Qed.

Lemma resolve_raises (gps_info : gmap tag value) (e : exn) :
  resolve gps_info = Raise e ->
  caught e = true \/ e = OverflowError \/ e = UnboundLocalError.
Proof.
  unfold resolve.
  destruct (get_latitude gps_info) as [lat|e1] eqn:H1; simpl.
  2: { intros [= <-]. apply get_latitude_raises in H1. tauto. }
  destruct (get_longitude gps_info) as [lon|e2] eqn:H2; simpl.
  2: { intros [= <-]. apply get_longitude_raises in H2. tauto. }
  destruct (get_altitude gps_info) as [alt|e3] eqn:H3; simpl.
  2: { intros [= <-]. apply get_altitude_raises in H3. tauto. }
  destruct lat as [lat|]; simpl; [| intros [= <-]; auto].
  destruct lon as [lon|]; simpl; [discriminate | intros [= <-]; auto].
Qed.

(** X9: the only exceptions that escape the resolver are
    UnboundLocalError (a local read before assignment) and
    OverflowError (an integer beyond the range of the floats); a
    KeyError, ValueError or TypeError never does. *)
Theorem get_gps_coordinates_raises (exif_data : option RawMetadata) (e : exn) :
  get_gps_coordinates exif_data = Raise e ->
  e = UnboundLocalError \/ e = OverflowError.
Proof.
  unfold get_gps_coordinates. destruct exif_data as [exif|]; [| discriminate].
  destruct (is_empty exif); [discriminate |].
  destruct (GPSInfo exif) as [gps_info|]; [| discriminate].
  unfold try_except. destruct (resolve gps_info) as [c|e'] eqn:Hr; [discriminate |].
  destruct (caught e') eqn:Hc; [discriminate |]. intros [= <-].
  apply resolve_raises in Hr as [Hr | [-> | ->]]; auto. congruence.
Qed.

Lemma get_gps_coordinates_raises_witness :
  UnboundLocalError = UnboundLocalError \/ UnboundLocalError = OverflowError.
Proof.
  apply (get_gps_coordinates_raises (Some latitude_only) UnboundLocalError). reflexivity.
Defined.

(** ** The timestamp line *)

(** X10: a timestamp that is false as a truth value (an empty text, a
    zero, an empty tuple) gives the document of no timestamp at all:
    the description says "Captured: Unknown". *)
Theorem create_kml_falsy_timestamp
    (serialize : element -> result string) (photo_filename : string)
    (coordinates : Coordinates) (photo_url : string) (timestamp : value) :
  py_truthy timestamp = false ->
  create_kml serialize photo_filename coordinates photo_url (Some timestamp) =
  create_kml serialize photo_filename coordinates photo_url None.
Proof.
  intros H. unfold create_kml, kml_tree, pm_description_text, captured. now rewrite H.
Qed.

Lemma create_kml_falsy_timestamp_witness :
  create_kml Xml.toprettyxml "photo.jpg" pittsburgh_coordinates "http://host/p.jpg"
    (Some (VStr "")) =
  create_kml Xml.toprettyxml "photo.jpg" pittsburgh_coordinates "http://host/p.jpg" None.
Proof. apply create_kml_falsy_timestamp. reflexivity. Defined.

(** ** The pipeline of [upload_file] *)

Section Pipeline.

Variable serialize : element -> result string.

(** X11: a success answer is backed by every gate: the metadata is
    present, the resolver returned exactly the coordinates of the
    answer, the timestamp is the one read from the metadata, and the
    KML text is what [create_kml] returned for them; the builder is
    never reached otherwise. *)
Theorem upload_file_Success
    (filename : string) (exif_data : option RawMetadata) (photo_url : string)
    (kml_content : string) (c : Coordinates) (timestamp : option value) :
  upload_file serialize filename exif_data photo_url =
    Return (Success kml_content c timestamp) ->
  exists exif,
    exif_data = Some exif /\
    get_gps_coordinates (Some exif) = Return (Some c) /\
    timestamp = upload_timestamp exif /\
    create_kml serialize filename c photo_url timestamp = Return kml_content.
Proof.
  unfold upload_file. destruct exif_data as [exif|]; [| discriminate].
  destruct (is_empty exif); [discriminate |].
  destruct (get_gps_coordinates (Some exif)) as [[c'|]|e] eqn:Hg; simpl; try discriminate.
  destruct (create_kml _ _ _ _ _) as [k|e] eqn:Hk; simpl; [| discriminate].
  intros [= <- <- <-]. exists exif. repeat split; assumption || reflexivity.
Qed.

(** X12: the two error answers and their causes: "No EXIF data found
    in image" is given exactly for absent or empty metadata, "No GPS
    coordinates found in image EXIF data" exactly when the metadata is
    not empty and the resolver returned None; no other error answer
    exists, a failing builder raises instead. *)
Theorem upload_file_Error400
    (filename : string) (exif_data : option RawMetadata) (photo_url : string)
    (error : string) :
  upload_file serialize filename exif_data photo_url = Return (Error400 error) <->
  (error = "No EXIF data found in image" /\
   (exif_data = None \/ exists exif, exif_data = Some exif /\ is_empty exif = true)) \/
  (error = "No GPS coordinates found in image EXIF data" /\
   exists exif,
     exif_data = Some exif /\ is_empty exif = false /\
     get_gps_coordinates (Some exif) = Return None).
Proof.
  unfold upload_file. split.
  - destruct exif_data as [exif|].
    + destruct (is_empty exif) eqn:He.
      * intros [= <-]. left. split; [reflexivity |]. right. eauto.
      * destruct (get_gps_coordinates (Some exif)) as [[c|]|e] eqn:Hg; simpl.
        -- destruct (create_kml _ _ _ _ _); discriminate.
        -- intros [= <-]. right. split; [reflexivity |]. exists exif. auto.
        -- discriminate.
    + intros [= <-]. left. auto.
  - intros [[-> [-> | (exif & -> & He)]] | [-> (exif & -> & He & Hg)]].
    + reflexivity.
    + now rewrite He.
    + now rewrite He, Hg.
Qed.

End Pipeline.

Lemma upload_file_Success_witness :
  exists exif kml_content,
    Some pittsburgh = Some exif /\
    get_gps_coordinates (Some exif) = Return (Some pittsburgh_coordinates) /\
    create_kml Xml.toprettyxml "photo.jpg" pittsburgh_coordinates "http://host/p.jpg" None =
      Return kml_content.
Proof.
  pose (kml_content :=
          match create_kml Xml.toprettyxml "photo.jpg" pittsburgh_coordinates
                  "http://host/p.jpg" None with
          | Return k => k
          | Raise _ => ""
          end).
  destruct (upload_file_Success Xml.toprettyxml "photo.jpg" (Some pittsburgh)
              "http://host/p.jpg" kml_content pittsburgh_coordinates None)
    as (exif & He & Hg & _ & Hk).
  - vm_compute. reflexivity.
  - exists exif, kml_content. repeat split; assumption.
Defined.

(** ** The fields of the point text *)

Lemma all_chars_append (P : ascii -> bool) (a b : string) :
  all_chars P (a ++ b) = all_chars P a && all_chars P b.
Proof.
  induction a as [|c a IH]; [reflexivity |].
  rewrite append_cons. simpl. now rewrite IH, andb_assoc.
Qed.

Lemma all_chars_substring (P : ascii -> bool) (n m : nat) (s : string) :
  all_chars P s = true -> all_chars P (substring n m s) = true.
Proof.
  revert n m. induction s as [|c s IH]; intros n m H.
  - now destruct n, m.
  - simpl in H. apply andb_true_iff in H as [Hc Hs].
    destruct n as [|n]; [destruct m as [|m] |]; simpl; auto.
    now rewrite Hc, IH.
Qed.

Lemma all_chars_repeat (P : ascii -> bool) (s : string) (n : nat) :
  all_chars P s = true -> all_chars P (Py.repeat_string s n) = true.
Proof.
  intros H. induction n as [|n IH]; [reflexivity |].
  simpl. now rewrite all_chars_append, H, IH.
Qed.

Lemma all_chars_uint (d : Decimal.uint) :
  all_chars float_char (NilEmpty.string_of_uint d) = true.
Proof. induction d; simpl; auto. Qed.

Lemma all_chars_nilzero (d : Decimal.uint) :
  all_chars float_char (NilZero.string_of_uint d) = true.
Proof. destruct d; try reflexivity; apply (all_chars_uint (_ d)). Qed.

Lemma all_chars_dec (z : Z) : all_chars float_char (Py.dec z) = true.
Proof.
  unfold Py.dec, NilZero.string_of_int.
  destruct (Z.to_int z) as [d|d]; [apply all_chars_nilzero |].
  simpl. apply all_chars_nilzero.
Qed.

Ltac chars :=
  repeat match goal with
  | |- all_chars _ (_ ++ _) = true => rewrite all_chars_append; apply andb_true_intro; split
  | |- all_chars _ (if ?b then _ else _) = true => destruct b
  | |- all_chars _ (substring _ _ _) = true => apply all_chars_substring
  | |- all_chars _ (Py.repeat_string _ _) = true => apply all_chars_repeat
  | |- all_chars _ (Py.dec _) = true => apply all_chars_dec
  | |- all_chars _ (Py.sign_string ?s) = true => destruct s; reflexivity
  | |- all_chars _ (String _ _) = true => reflexivity
  | |- all_chars _ EmptyString = true => reflexivity
  end.

(** [repr()] of a float is made of the characters of [float_char]. *)
Lemma all_chars_float_repr (x : float) : all_chars float_char (Py.float_repr x) = true.
Proof.
  unfold Py.float_repr. destruct (Prim2SF x) as [s|s| |s m e].
  - chars.
  - chars.
  - reflexivity.
  - destruct (Py.shortest_decimal m e) as [c k]. cbv zeta. chars.
Qed.

Lemma all_chars_has_char (P : ascii -> bool) (c : ascii) (s : string) :
  all_chars P s = true -> P c = false -> Py.has_char c s = false.
Proof.
  intros H Hc. induction s as [|a s IH]; [reflexivity |].
  simpl in H. apply andb_true_iff in H as [Ha Hs].
  rewrite has_char_cons, (IH Hs), orb_false_r.
  destruct (Ascii.eqb_spec c a) as [-> |]; [congruence | reflexivity].
Qed.

Lemma float_repr_no_comma (x : float) : Py.has_char "," (Py.float_repr x) = false.
Proof. apply (all_chars_has_char float_char); [apply all_chars_float_repr | reflexivity]. Qed.

Lemma str_split_no_sep (sep : ascii) (s : string) :
  Py.has_char sep s = false -> str_split sep s = [s].
Proof.
  induction s as [|c s IH]; [reflexivity |].
  rewrite has_char_cons. intros H. apply orb_false_elim in H as [Hc Hs].
  simpl. rewrite Ascii.eqb_sym, Hc. now rewrite (IH Hs).
Qed.

Lemma str_split_append (sep : ascii) (a b : string) :
  Py.has_char sep a = false ->
  str_split sep (a ++ String sep b) = a :: str_split sep b.
Proof.
  induction a as [|c a IH].
  - intros _. rewrite append_nil_l. simpl. now rewrite Ascii.eqb_refl.
  - rewrite has_char_cons. intros H. apply orb_false_elim in H as [Hc Ha].
    rewrite append_cons. simpl. rewrite Ascii.eqb_sym, Hc. now rewrite (IH Ha).
Qed.

(** X13: split at its commas, the point text gives back exactly its
    fields, [repr()] of the longitude, of the latitude and, when the
    altitude passes the truth test, of the altitude, in this order:
    two fields or three, since [repr()] of a float holds no comma. *)
Theorem coords_text_fields (c : Coordinates) :
  str_split "," (coords_text c) =
  map Py.float_repr
    (longitude c :: latitude c ::
     match truthy_altitude c with
     | Some a => [a]
     | None => []
     end).
Proof.
  unfold coords_text. destruct (truthy_altitude c) as [a|]; simpl.
  - change (str_split ","
              (Py.float_repr (longitude c) ++
               String "," (Py.float_repr (latitude c) ++ String "," (Py.float_repr a))) =
            [Py.float_repr (longitude c); Py.float_repr (latitude c); Py.float_repr a]).
    rewrite !str_split_append by apply float_repr_no_comma.
    now rewrite str_split_no_sep by apply float_repr_no_comma.
  - change (str_split ","
              (Py.float_repr (longitude c) ++ String "," (Py.float_repr (latitude c))) =
            [Py.float_repr (longitude c); Py.float_repr (latitude c)]).
    rewrite str_split_append by apply float_repr_no_comma.
    now rewrite str_split_no_sep by apply float_repr_no_comma.
Qed.

(** ** The dictionary [get_exif_data] builds *)

Section ReaderProperties.

Variables TAGS GPSTAGS : gmap Z string.

Lemma tag_name_GPSInfo (tag_id : Z) :
  tag_name TAGS tag_id = inl "GPSInfo" <-> TAGS !! tag_id = Some "GPSInfo".
Proof.
  unfold tag_name. destruct (TAGS !! tag_id) as [name|]; split; congruence.
Qed.

(** Each turn of the loop inserts under the name of its item. *)
Lemma store_Some (m m' : gmap tag entry) (item : Z * exif_object) :
  store TAGS GPSTAGS m item = Some m' ->
  exists x, m' = <[tag_name TAGS (fst item) := x]> m /\
    match snd item with
    | ExifValue v => x = Flat v /\ tag_name TAGS (fst item) <> inl "GPSInfo"
    | ExifBlock b =>
        if decide (tag_name TAGS (fst item) = inl "GPSInfo")
        then x = Block (gps_data GPSTAGS b)
        else x = Block (as_stored b)
    end.
Proof.
  unfold store. destruct (decide (tag_name TAGS (fst item) = inl "GPSInfo")) as [He|Hne].
  - destruct (snd item) as [v|b]; [discriminate |].
    intros [= <-]. rewrite He. eauto.
  - intros [= <-]. destruct (snd item) as [v|b]; eauto.
Qed.

Lemma store_None (m : gmap tag entry) (item : Z * exif_object) :
  store TAGS GPSTAGS m item = None <->
  exists v, snd item = ExifValue v /\ TAGS !! fst item = Some "GPSInfo".
Proof.
  unfold store. setoid_rewrite <- tag_name_GPSInfo.
  destruct (decide (tag_name TAGS (fst item) = inl "GPSInfo")) as [He|Hne].
  - destruct (snd item) as [v|b]; split; try discriminate; eauto.
    intros (v & Hv & _). discriminate.
  - split; [discriminate |]. intros (v & _ & He). contradiction.
Qed.

(** The loop fails exactly when some item named GPSInfo holds a value
    that is no dictionary. *)
Lemma extract_None (m : gmap tag entry) (d : list (Z * exif_object)) :
  extract TAGS GPSTAGS m d = None <->
  exists tag_id v, (tag_id, ExifValue v) ∈ d /\ TAGS !! tag_id = Some "GPSInfo".
Proof.
  revert m. induction d as [|item d IH]; intros m; simpl.
  - split; [discriminate |]. intros (i & v & H & _). now apply elem_of_nil in H.
  - destruct (store TAGS GPSTAGS m item) as [m'|] eqn:Hs.
    + rewrite IH. split; intros (i & v & Hin & Ht); exists i, v; split; auto.
      * now apply list_elem_of_further.
      * apply elem_of_cons in Hin as [Heq | Hin]; [| exact Hin]. subst item.
        assert (store TAGS GPSTAGS m (i, ExifValue v) = None) by (apply store_None; eauto).
        congruence.
    + split; [intros _ | reflexivity].
      apply store_None in Hs as (v & Hv & Ht). exists (fst item), v.
      split; [| exact Ht]. destruct item as [i o]. simpl in *. subst o.
      apply list_elem_of_here.
Qed.

(** A key no later item is named after keeps its entry. *)
Lemma extract_lookup_other (m e : gmap tag entry) (d : list (Z * exif_object)) (k : tag) :
  extract TAGS GPSTAGS m d = Some e ->
  k ∉ (fun item => tag_name TAGS (fst item)) <$> d ->
  e !! k = m !! k.
Proof.
  revert m. induction d as [|item d IH]; intros m; simpl.
  - now intros [= <-].
  - destruct (store TAGS GPSTAGS m item) as [m'|] eqn:Hs; [| discriminate].
    intros He Hk. apply not_elem_of_cons in Hk as [Hne Hk].
    rewrite (IH _ He Hk). apply store_Some in Hs as (x & -> & _).
    now apply lookup_insert_ne.
Qed.

(** Every key of the result is the name of an item, or was there
    before. *)
Lemma extract_lookup_Some (m e : gmap tag entry) (d : list (Z * exif_object))
    (k : tag) (x : entry) :
  extract TAGS GPSTAGS m d = Some e ->
  e !! k = Some x ->
  m !! k = Some x \/ k ∈ (fun item => tag_name TAGS (fst item)) <$> d.
Proof.
  intros He Hx.
  destruct (decide (k ∈ (fun item => tag_name TAGS (fst item)) <$> d)) as [Hin|Hnin].
  - now right.
  - left. now rewrite <- (extract_lookup_other _ _ _ _ He Hnin).
Qed.

Lemma extract_non_empty (m e : gmap tag entry) (d : list (Z * exif_object)) :
  extract TAGS GPSTAGS m d = Some e -> m <> ∅ \/ d <> [] -> e <> ∅.
Proof.
  revert m. induction d as [|item d IH]; intros m; simpl.
  - intros [= <-] [H | H]; [exact H | contradiction].
  - destruct (store TAGS GPSTAGS m item) as [m'|] eqn:Hs; [| discriminate].
    intros He _. apply (IH _ He). left.
    apply store_Some in Hs as (x & -> & _). apply insert_non_empty.
Qed.

(** With distinct names, each item is found under its name, as its
    turn of the loop stored it. *)
Lemma extract_lookup_item (m e : gmap tag entry) (d : list (Z * exif_object))
    (item : Z * exif_object) :
  NoDup ((fun item => tag_name TAGS (fst item)) <$> d) ->
  extract TAGS GPSTAGS m d = Some e ->
  item ∈ d ->
  exists x,
    e !! tag_name TAGS (fst item) = Some x /\
    match snd item with
    | ExifValue v => x = Flat v /\ tag_name TAGS (fst item) <> inl "GPSInfo"
    | ExifBlock b =>
        if decide (tag_name TAGS (fst item) = inl "GPSInfo")
        then x = Block (gps_data GPSTAGS b)
        else x = Block (as_stored b)
    end.
Proof.
  revert m. induction d as [|it d IH]; intros m Hnd; simpl.
  - intros _ H. now apply elem_of_nil in H.
  - destruct (store TAGS GPSTAGS m it) as [m'|] eqn:Hs; [| discriminate].
    rewrite fmap_cons in Hnd. apply NoDup_cons in Hnd as [Hnin Hnd].
    intros He Hin. apply elem_of_cons in Hin as [-> | Hin].
    + rewrite (extract_lookup_other _ _ _ _ He Hnin).
      destruct (store_Some _ _ _ Hs) as (x & -> & Hx).
      exists x. split; [apply lookup_insert_eq | exact Hx].
    + now apply (IH m').
Qed.

End ReaderProperties.

Section ReaderTheorems.

Variables TAGS GPSTAGS : gmap Z string.

Lemma get_exif_data_cons (item : Z * exif_object) (d : list (Z * exif_object)) :
  get_exif_data TAGS GPSTAGS (ReadExif (item :: d)) =
  extract TAGS GPSTAGS ∅ (item :: d).
Proof. reflexivity. Qed.

(** X14: the reader returns None exactly when reading the image
    failed, when the image has no EXIF dictionary or an empty one, or
    when a tag named GPSInfo holds a value that is no dictionary (the
    exception of the inner loop ends in None, whatever the other tags
    are). *)
Theorem get_exif_data_None (read : exif_read) :
  get_exif_data TAGS GPSTAGS read = None <->
  read = ReadError \/ read = ReadNone \/ read = ReadExif [] \/
  exists d tag_id v,
    read = ReadExif d /\ (tag_id, ExifValue v) ∈ d /\ TAGS !! tag_id = Some "GPSInfo".
Proof.
  destruct read as [| |d].
  - split; auto.
  - split; auto.
  - destruct d as [|item d].
    + split; auto.
    + rewrite get_exif_data_cons, extract_None. split.
      * intros (i & v & Hin & Ht). right; right; right. exists (item :: d), i, v. auto.
      * intros [H | [H | [H | (d' & i & v & [= <-] & Hin & Ht)]]]; try discriminate.
        eauto.
Qed.

(** X15: a dictionary the reader returns is never empty, and each of
    its keys is the name, or for an unknown tag the number, of a tag of
    the image: nothing is invented. *)
Theorem get_exif_data_Some (read : exif_read) (e : gmap tag entry) :
  get_exif_data TAGS GPSTAGS read = Some e ->
  e <> ∅ /\
  exists d,
    read = ReadExif d /\
    forall k x, e !! k = Some x ->
      exists tag_id object, (tag_id, object) ∈ d /\ k = tag_name TAGS tag_id.
Proof.
  destruct read as [| |d]; try discriminate.
  destruct d as [|item d]; [discriminate |].
  rewrite get_exif_data_cons. intros He. split.
  - apply (extract_non_empty _ _ _ _ _ He). now right.
  - exists (item :: d). split; [reflexivity |]. intros k x Hk.
    destruct (extract_lookup_Some _ _ _ _ _ _ _ He Hk) as [H | H].
    + now rewrite lookup_empty in H.
    + apply list_elem_of_fmap in H as ([i o] & -> & Hin). eauto.
Qed.

(** X16: when the tags of the image have distinct names, every tag
    value is found in the result under its name, or under its number
    when [TAGS] does not know it, unchanged. *)
Theorem get_exif_data_value
    (d : list (Z * exif_object)) (e : gmap tag entry) (tag_id : Z) (v : value) :
  NoDup ((fun item => tag_name TAGS (fst item)) <$> d) ->
  get_exif_data TAGS GPSTAGS (ReadExif d) = Some e ->
  (tag_id, ExifValue v) ∈ d ->
  e !! tag_name TAGS tag_id = Some (Flat v) /\
  flat_tags (as_metadata e) !! tag_name TAGS tag_id = Some v.
Proof.
  intros Hnd He Hin.
  assert (extract TAGS GPSTAGS ∅ d = Some e) as He'.
  { destruct d; [discriminate | exact He]. }
  destruct (extract_lookup_item _ _ _ _ _ _ Hnd He' Hin) as (x & Hx & -> & _).
  split; [exact Hx |].
  simpl. rewrite lookup_omap. simpl in Hx. now rewrite Hx.
Qed.

Lemma gps_fold_lookup_other (b : list (Z * value)) (m : gmap tag value) (k : tag) :
  k ∉ (fun item => tag_name GPSTAGS (fst item)) <$> b ->
  fold_left (fun gps_data item => <[tag_name GPSTAGS (fst item) := snd item]> gps_data) b m
    !! k = m !! k.
Proof.
  revert m. induction b as [|item b IH]; intros m Hk; simpl; [reflexivity |].
  rewrite fmap_cons in Hk. apply not_elem_of_cons in Hk as [Hne Hk].
  rewrite (IH _ Hk). now apply lookup_insert_ne.
Qed.

Lemma gps_fold_lookup_item (b : list (Z * value)) (m : gmap tag value)
    (gps_tag_id : Z) (v : value) :
  NoDup ((fun item => tag_name GPSTAGS (fst item)) <$> b) ->
  (gps_tag_id, v) ∈ b ->
  fold_left (fun gps_data item => <[tag_name GPSTAGS (fst item) := snd item]> gps_data) b m
    !! tag_name GPSTAGS gps_tag_id = Some v.
Proof.
  revert m. induction b as [|item b IH]; intros m Hnd Hin; simpl.
  - now apply elem_of_nil in Hin.
  - rewrite fmap_cons in Hnd. apply NoDup_cons in Hnd as [Hnin Hnd].
    apply elem_of_cons in Hin as [Heq | Hin].
    + subst item. rewrite (gps_fold_lookup_other _ _ _ Hnin). apply lookup_insert_eq.
    + now apply IH.
Qed.

(** X17: when names are distinct, the dictionary of the tag named
    GPSInfo becomes the GPS block of the metadata, and every value of
    it is found there under its GPS name, or under its number when
    [GPSTAGS] does not know it. *)
Theorem get_exif_data_gps
    (d : list (Z * exif_object)) (e : gmap tag entry) (tag_id : Z)
    (b : list (Z * value)) (gps_tag_id : Z) (v : value) :
  NoDup ((fun item => tag_name TAGS (fst item)) <$> d) ->
  NoDup ((fun item => tag_name GPSTAGS (fst item)) <$> b) ->
  get_exif_data TAGS GPSTAGS (ReadExif d) = Some e ->
  (tag_id, ExifBlock b) ∈ d ->
  TAGS !! tag_id = Some "GPSInfo" ->
  (gps_tag_id, v) ∈ b ->
  exists gps_info,
    GPSInfo (as_metadata e) = Some gps_info /\
    gps_info !! tag_name GPSTAGS gps_tag_id = Some v.
Proof.
  intros Hnd Hndb He Hin Ht Hv.
  assert (extract TAGS GPSTAGS ∅ d = Some e) as He'.
  { destruct d; [discriminate | exact He]. }
  destruct (extract_lookup_item _ _ _ _ _ _ Hnd He' Hin) as (x & Hx & Hb).
  apply tag_name_GPSInfo in Ht. simpl in Hx, Hb. rewrite Ht in Hx.
  destruct (decide (tag_name TAGS tag_id = inl "GPSInfo")); [| contradiction]. subst x.
  exists (gps_data GPSTAGS b). split.
  - simpl. now rewrite Hx.
  - now apply gps_fold_lookup_item.
Qed.

Lemma extract_GPSInfo_block (m e : gmap tag entry) (d : list (Z * exif_object)) :
  (forall x, m !! (inl "GPSInfo" : tag) = Some x -> exists g, x = Block g) ->
  extract TAGS GPSTAGS m d = Some e ->
  forall x, e !! (inl "GPSInfo" : tag) = Some x -> exists g, x = Block g.
Proof.
  revert m. induction d as [|item d IH]; intros m Hm; simpl.
  - now intros [= <-].
  - destruct (store TAGS GPSTAGS m item) as [m'|] eqn:Hs; [| discriminate].
    apply IH. intros x Hx.
    destruct (store_Some _ _ _ _ _ Hs) as (y & -> & Hy).
    destruct (decide (tag_name TAGS (fst item) = inl "GPSInfo")) as [Hk|Hk].
    + rewrite Hk, lookup_insert_eq in Hx. injection Hx as <-.
      destruct (snd item) as [v|b]; [now destruct Hy | eauto].
    + rewrite lookup_insert_ne in Hx by exact Hk. now apply Hm.
Qed.

(** X18: in a dictionary the reader returns, the key GPSInfo holds a
    dictionary or is absent, never a plain value; so no flat tag of the
    metadata is called GPSInfo. *)
Theorem get_exif_data_GPSInfo (read : exif_read) (e : gmap tag entry) :
  get_exif_data TAGS GPSTAGS read = Some e ->
  (forall x, e !! (inl "GPSInfo" : tag) = Some x -> exists g, x = Block g) /\
  flat_tags (as_metadata e) !! (inl "GPSInfo" : tag) = None.
Proof.
  intros He.
  assert (forall x, e !! (inl "GPSInfo" : tag) = Some x -> exists g, x = Block g) as H.
  { destruct read as [| |d]; try discriminate.
    destruct d as [|item d]; [discriminate |].
    rewrite get_exif_data_cons in He.
    apply (extract_GPSInfo_block ∅ e (item :: d)); [| exact He].
    intros x Hx. now rewrite lookup_empty in Hx. }
  split; [exact H |].
  simpl. rewrite lookup_omap.
  destruct (e !! (inl "GPSInfo" : tag)) as [x|] eqn:Hx; [| reflexivity].
  destruct (H x eq_refl) as [g ->]. reflexivity.
Qed.

(** X19: reader and resolver composed: when no tag of the image is
    named GPSInfo, the resolver returns None for the metadata the reader
    built. *)
Theorem get_gps_coordinates_no_GPSInfo_tag
    (d : list (Z * exif_object)) (e : gmap tag entry) :
  get_exif_data TAGS GPSTAGS (ReadExif d) = Some e ->
  (forall tag_id object, (tag_id, object) ∈ d -> TAGS !! tag_id <> Some "GPSInfo") ->
  get_gps_coordinates (Some (as_metadata e)) = Return None.
Proof.
  intros He Hno.
  assert (extract TAGS GPSTAGS ∅ d = Some e) as He'.
  { destruct d; [discriminate | exact He]. }
  assert (e !! (inl "GPSInfo" : tag) = None) as Hg.
  { destruct (e !! (inl "GPSInfo" : tag)) as [x|] eqn:Hx; [| reflexivity].
    destruct (extract_lookup_Some _ _ _ _ _ _ _ He' Hx) as [H | H].
    - now rewrite lookup_empty in H.
    - apply list_elem_of_fmap in H as ([i o] & Hk & Hin). simpl in Hk.
      symmetry in Hk. apply tag_name_GPSInfo in Hk. now apply Hno in Hin. }
  unfold get_gps_coordinates. simpl. rewrite Hg.
  now destruct (is_empty (as_metadata e)).
Qed.

End ReaderTheorems.

(** The sample image read end to end: the reader's metadata, and the
    coordinates the resolver finds in it. *)
Example sample_exif_resolved :
  (get_gps_coordinates
     (as_metadata <$> get_exif_data sample_TAGS sample_GPSTAGS (ReadExif sample_exif)) =
   Return (Some pittsburgh_coordinates)) /\
  (upload_timestamp <$>
     (as_metadata <$> get_exif_data sample_TAGS sample_GPSTAGS (ReadExif sample_exif)) =
   Some (Some (VStr "2024:03:01 10:00:00"))).
Proof. split; reflexivity. Qed.

Lemma sample_exif_NoDup :
  NoDup ((fun item => tag_name sample_TAGS (fst item)) <$> sample_exif).
Proof. apply (bool_decide_unpack _). vm_compute. exact I. Defined.

Lemma sample_gps_block_NoDup :
  NoDup ((fun item => tag_name sample_GPSTAGS (fst item)) <$> sample_gps_block).
Proof. apply (bool_decide_unpack _). vm_compute. exact I. Defined.

Lemma get_exif_data_Some_witness :
  exists e,
    get_exif_data sample_TAGS sample_GPSTAGS (ReadExif sample_exif) = Some e /\ e <> ∅.
Proof.
  pose (e := default ∅ (get_exif_data sample_TAGS sample_GPSTAGS (ReadExif sample_exif))).
  exists e. split; [reflexivity |].
  apply (get_exif_data_Some sample_TAGS sample_GPSTAGS (ReadExif sample_exif) e).
  reflexivity.
Defined.

Lemma get_exif_data_value_witness :
  exists e,
    e !! (inl "Make" : tag) = Some (Flat (VStr "Canon")) /\
    flat_tags (as_metadata e) !! (inr 59999 : tag) = Some (VInt 7).
Proof.
  pose (e := default ∅ (get_exif_data sample_TAGS sample_GPSTAGS (ReadExif sample_exif))).
  exists e. split.
  - apply (get_exif_data_value sample_TAGS sample_GPSTAGS sample_exif e 271 (VStr "Canon")
             sample_exif_NoDup eq_refl).
    apply list_elem_of_here.
  - apply (get_exif_data_value sample_TAGS sample_GPSTAGS sample_exif e 59999 (VInt 7)
             sample_exif_NoDup eq_refl).
    do 3 apply list_elem_of_further. apply list_elem_of_here.
Defined.

Lemma get_exif_data_gps_witness :
  exists e gps_info,
    GPSInfo (as_metadata e) = Some gps_info /\
    gps_info !! (inl "GPSLatitude" : tag) = Some (dms 40 26 46).
Proof.
  pose (e := default ∅ (get_exif_data sample_TAGS sample_GPSTAGS (ReadExif sample_exif))).
  destruct (get_exif_data_gps sample_TAGS sample_GPSTAGS sample_exif e 34853
              sample_gps_block 2 (dms 40 26 46)
              sample_exif_NoDup sample_gps_block_NoDup eq_refl)
    as (gps_info & Hg & Hv).
  - do 2 apply list_elem_of_further. apply list_elem_of_here.
  - reflexivity.
  - apply list_elem_of_further, list_elem_of_here.
  - exists e, gps_info. split; [exact Hg | exact Hv].
Defined.

Lemma get_exif_data_GPSInfo_witness :
  exists e,
    get_exif_data sample_TAGS sample_GPSTAGS (ReadExif sample_exif) = Some e /\
    flat_tags (as_metadata e) !! (inl "GPSInfo" : tag) = None.
Proof.
  pose (e := default ∅ (get_exif_data sample_TAGS sample_GPSTAGS (ReadExif sample_exif))).
  exists e. split; [reflexivity |].
  apply (get_exif_data_GPSInfo sample_TAGS sample_GPSTAGS (ReadExif sample_exif) e).
  reflexivity.
Defined.

Lemma get_gps_coordinates_no_GPSInfo_tag_witness :
  exists e,
    get_exif_data sample_TAGS sample_GPSTAGS
      (ReadExif [(306, ExifValue (VStr "2024:03:01 10:00:00"))]) = Some e /\
    get_gps_coordinates (Some (as_metadata e)) = Return None.
Proof.
  pose (e := default ∅ (get_exif_data sample_TAGS sample_GPSTAGS
                          (ReadExif [(306, ExifValue (VStr "2024:03:01 10:00:00"))]))).
  exists e. split; [reflexivity |].
  apply (get_gps_coordinates_no_GPSInfo_tag sample_TAGS sample_GPSTAGS
           [(306, ExifValue (VStr "2024:03:01 10:00:00"))] e eq_refl).
  intros tag_id object Hin. apply elem_of_cons in Hin as [[= -> _] | Hin].
  - discriminate.
  - now apply elem_of_nil in Hin.
Defined.
